(** * automation-framework: [Files.arrange_files] and [convert_to_array]

    A shallow embedding of the two routines of the repository that carry
    logic of their own:

    - [src/files.py], [Files.arrange_files]: sorts the entries of a folder
      into sub-folders by file extension;
    - [src/automation/utils.py], [convert_to_array]: a generator turning
      each positional argument into a numpy array.

    Definitions come first (one module per source file), theorems after. *)

From Stdlib Require Import String Ascii List ZArith Lia Bool Arith Permutation.
Import ListNotations.

Local Open Scope string_scope.
Local Open Scope list_scope.

(* ================================================================== *)
(** * [src/files.py] *)
(* ================================================================== *)

Module Files.

(** ** Python string operations used by [arrange_files]

    File names are modelled as ASCII strings. *)

(** [x[-4:]]: the last four characters, the whole string when shorter. *)
Definition last4 (x : string) : string :=
  substring (String.length x - 4) 4 x.

(** [re.search("^[.]", y)]: [y] starts with a dot. *)
Definition starts_with_dot (y : string) : bool :=
  match y with
  | String c _ => Ascii.eqb c "."
  | EmptyString => false
  end.

(** [ext[1:]] *)
Definition drop1 (ext : string) : string :=
  match ext with
  | String _ rest => rest
  | EmptyString => EmptyString
  end.

Definition is_letter (c : ascii) : bool :=
  let n := nat_of_ascii c in
  (Nat.leb 65 n && Nat.leb n 90) || (Nat.leb 97 n && Nat.leb n 122).

Fixpoint all_letters (s : string) : bool :=
  match s with
  | EmptyString => true
  | String c rest => is_letter c && all_letters rest
  end.

(** [str.isalpha()]: at least one character, and all of them letters. *)
Definition isalpha (s : string) : bool :=
  match s with
  | EmptyString => false
  | _ => all_letters s
  end.

(** ** The folder being arranged

    Only the folder [self.folder_directory] and what lies below it matter.
    An entry is a regular file or a directory; a folder is the list of its
    named entries.  Names are path components and are unique in a folder. *)

#[warnings="-register-all"]
Inductive node : Type :=
| File (data : string)
| Dir (entries : list (string * node)).

Definition folder : Type := list (string * node).

Definition names (d : folder) : list string := map fst d.

Fixpoint lookup (name : string) (d : folder) : option node :=
  match d with
  | [] => None
  | (n, v) :: rest => if String.eqb name n then Some v else lookup name rest
  end.

Definition remove_entry (name : string) (d : folder) : folder :=
  filter (fun e => negb (String.eqb name (fst e))) d.

Definition set_entry (name : string) (v : node) (d : folder) : folder :=
  map (fun e => if String.eqb name (fst e) then (fst e, v) else e) d.

Definition rename_entry (src dst : string) (d : folder) : folder :=
  map (fun e => if String.eqb src (fst e) then (dst, snd e) else e) d.

Definition is_dir (v : node) : bool :=
  match v with Dir _ => true | File _ => false end.

(** ** Exceptions and outcomes

    There is no rollback: an exception leaves the folder as it is at the
    moment it is raised, so an outcome always carries the folder. *)

Inductive exn : Type :=
| FileExistsError (msg : string)
| FileNotFoundError (path : string)
| Error (msg : string).          (* shutil.Error *)

Inductive outcome : Type :=
| Returned (d : folder)
| Raised (e : exn) (d : folder).

Definition final (o : outcome) : folder :=
  match o with Returned d => d | Raised _ d => d end.

Definition bind (o : outcome) (k : folder -> outcome) : outcome :=
  match o with
  | Returned d => k d
  | Raised e d => Raised e d
  end.

Notation "o >>= k" := (bind o k) (at level 50, left associativity).

(** A [for] loop whose body may raise. *)
Fixpoint for_each {A : Type} (xs : list A) (body : A -> folder -> outcome)
    (d : folder) : outcome :=
  match xs with
  | [] => Returned d
  | x :: rest => body x d >>= for_each rest body
  end.

(** ** Operating-system calls, on the arranged folder *)

(** [os.makedirs(os.path.join(self.folder_directory, name))] *)
Definition makedirs (name : string) (d : folder) : outcome :=
  match lookup name d with
  | Some _ => Raised (FileExistsError name) d
  | None => Returned (d ++ [(name, Dir [])])
  end.

Section Listing.

(** [os.listdir] returns the names in arbitrary order: [ls] is the order
    the operating system picks. *)
Variable ls : list string -> list string.

Definition listdir (d : folder) : list string := ls (names d).

End Listing.

(** [shutil.move(join(dir, src), join(dir, dst))], following the library:
    a destination that is a directory receives the source under its own
    name, unless source and destination are the same path or the name is
    taken; otherwise the source is renamed to the destination, replacing a
    regular file that is in the way. *)
Definition shutil_move (src dst : string) (d : folder) : outcome :=
  match lookup dst d with
  | Some (Dir inside) =>
      if String.eqb src dst then Returned d
      else
        match lookup src inside with
        | Some _ => Raised (Error dst) d
        | None =>
            match lookup src d with
            | Some v =>
                Returned (set_entry dst (Dir (inside ++ [(src, v)]))
                            (remove_entry src d))
            | None => Raised (FileNotFoundError src) d
            end
        end
  | Some (File _) =>
      match lookup src d with
      | None => Raised (FileNotFoundError src) d
      | Some (Dir _) => Raised (FileExistsError dst) d
      | Some (File data) =>
          if String.eqb src dst then Returned d
          else Returned (set_entry dst (File data) (remove_entry src d))
      end
  | None =>
      match lookup src d with
      | None => Raised (FileNotFoundError src) d
      | Some _ => Returned (rename_entry src dst d)
      end
  end.

(** ** [arrange_files], step by step *)

(** [list.remove(x)]: drops the first occurrence of [x]. *)
Fixpoint list_remove (x : string) (l : list string) : list string :=
  match l with
  | [] => []
  | y :: rest => if String.eqb x y then rest else y :: list_remove x rest
  end.

(** Lines 46-51: [for ext in lst_file_ext] with [lst_file_ext.remove(ext)]
    in the body.  The list iterator holds an index [i] into the list being
    mutated; it stops when [i] reaches the current length.  Each turn
    advances [i], so [length l] turns are enough. *)
Fixpoint check_loop (fuel i : nat) (l : list string) : list string :=
  match fuel with
  | 0 => l
  | S fuel' =>
      match nth_error l i with
      | None => l
      | Some ext =>
          if isalpha (drop1 ext) then check_loop fuel' (S i) l
          else check_loop fuel' (S i) (list_remove ext l)
      end
  end.

Definition check_exts (l : list string) : list string :=
  check_loop (List.length l) 0 l.

(** Lines 42-54: the extension tokens of a listing.  [list(set(...))] is
    modelled by [nodup], which keeps one copy of each token. *)
Definition file_exts (lst_files : list string) : list string :=
  let lst_file_end := map last4 lst_files in
  let lst_file_ext := filter starts_with_dot lst_file_end in
  nodup string_dec (check_exts lst_file_ext).

(** Lines 56-60: [os.makedirs] of one bucket, [FileExistsError] caught. *)
Definition make_bucket (d : folder) (name : string) : folder :=
  match makedirs name d with
  | Returned d' => d'
  | Raised _ _ => d
  end.

(** Lines 62-65. *)
Definition move_by_ext (lst_files lst_file_ext : list string) : folder -> outcome :=
  for_each lst_files (fun file =>
    for_each lst_file_ext (fun file_ext d =>
      if String.eqb (last4 file) file_ext
      then shutil_move file file_ext d
      else Returned d)).

Definition not_in (l : list string) (x : string) : bool :=
  negb (existsb (String.eqb x) l).

Section Arrange.

Variable ls : list string -> list string.

(** Lines 67-72.  The destination is the literal ["others"]. *)
Definition move_misc (lst_file_ext : list string) (d : folder) : outcome :=
  let lst_all_files := listdir ls d in
  let lst_misc_files := filter (not_in lst_file_ext) lst_all_files in
  for_each lst_misc_files (fun misc_file => shutil_move misc_file "others") d.

(** Lines 36-72.  The messages written to standard output are left out:
    they do not touch the folder.  The [FileExistsError] of the first
    [os.makedirs] is raised again with the message of line 39. *)
Definition arrange_files (misc_folder_name : string) (d : folder) : outcome :=
  match makedirs misc_folder_name d with
  | Raised _ d0 =>
      Raised (FileExistsError
                ("Folder " ++ misc_folder_name ++
                 " already exists, please specify different folder name for misc files."))
             d0
  | Returned d1 =>
      let lst_files := listdir ls d1 in
      let lst_file_ext := file_exts lst_files in
      let d2 := fold_left make_bucket lst_file_ext d1 in
      move_by_ext lst_files lst_file_ext d2 >>= move_misc lst_file_ext
  end.

End Arrange.

(** ** Vocabulary of the properties *)

(** [kept t d d']: if [d] has an entry named [t], so has [d'], and it is
    still of the same kind (file or directory). *)
Definition kept (t : string) (d d' : folder) : Prop :=
  forall v, lookup t d = Some v ->
  exists v', lookup t d' = Some v' /\ is_dir v' = is_dir v.

(** The kind of the entry named [t] once a bucket [t] was asked for in
    [d]: what was there stays, a new entry is a directory. *)
Definition bucket_kind (t : string) (d : folder) : bool :=
  match lookup t d with
  | Some v => is_dir v
  | None => true
  end.

(** A token as line 47 accepts it: a dot, then letters only. *)
Definition valid_token (t : string) : bool :=
  starts_with_dot t && isalpha (drop1 t).

(** The folder of the worked example: three files with an extension and
    one without. *)
Definition example_folder : folder :=
  [("a.txt", File "A"); ("b.txt", File "B");
   ("c.csv", File "C"); ("readme", File "R")].

(** The listing order that follows the stored order. *)
Definition stored_order (l : list string) : list string := l.

(** ** [list_file_exts] (lines 74-76) *)

(** [x.endswith(ext)] *)
Definition endswith (x ext : string) : bool :=
  Nat.leb (String.length ext) (String.length x) &&
  String.eqb (substring (String.length x - String.length ext)
                        (String.length ext) x) ext.

Section Paths.

(** [os.path.join], whose separator depends on the platform, and the
    order [os.listdir] picks. *)
Variable join : string -> string -> string.
Variable ls : list string -> list string.

Definition list_file_exts (folder_directory : string) (d : folder)
    (ext : string) : list string :=
  map (join folder_directory)
      (filter (fun x => endswith x ext) (listdir ls d)).

End Paths.

(** ** [check_file_exists] (lines 87-95) *)

(** The argument [files]: a list of paths, or one path. *)
Inductive files_arg : Type :=
| PathList (paths : list string)
| OnePath (path : string).

Inductive checked : Type :=
| Passed
| AssertionError (msg : string).

Section Exists.

(** [os.path.exists], as the file system answers at the time of the call. *)
Variable path_exists : string -> bool.

(** [assert os.path.exists(file), f"{file} not found"] *)
Definition assert_exists (file : string) : checked :=
  if path_exists file then Passed
  else AssertionError (file ++ " not found").

Fixpoint assert_each (files : list string) : checked :=
  match files with
  | [] => Passed
  | file :: rest =>
      match assert_exists file with
      | Passed => assert_each rest
      | AssertionError msg => AssertionError msg
      end
  end.

Definition check_file_exists (files : files_arg) : checked :=
  match files with
  | PathList paths => assert_each paths
  | OnePath path => assert_exists path
  end.

End Exists.

(** ** More vocabulary *)

(** The test of line 47, on a whole token. *)
Definition accepted (ext : string) : bool := isalpha (drop1 ext).

(** The entry [x], with content [v], lies in the directory [t] of the
    folder. *)
Definition in_bucket (t x : string) (v : node) (d : folder) : Prop :=
  exists inside, lookup t d = Some (Dir inside) /\ lookup x inside = Some v.

(** The inner body of lines 62-65, for one file and one token. *)
Definition try_move (file file_ext : string) (d : folder) : outcome :=
  if String.eqb (last4 file) file_ext
  then shutil_move file file_ext d
  else Returned d.

(** The entry [x], with content [v], is still on top of the folder, and
    [t] is a directory there. *)
Definition awaits (t x : string) (v : node) (d : folder) : Prop :=
  lookup x d = Some v /\ exists inside, lookup t d = Some (Dir inside).

(** No two neighbours of the list are both rejected by line 47. *)
Fixpoint rejected_apart (l : list string) : Prop :=
  match l with
  | [] => True
  | x :: rest =>
      match rest with
      | [] => True
      | y :: _ => (accepted x = true \/ accepted y = true) /\ rejected_apart rest
      end
  end.

End Files.


(* ================================================================== *)
(** * [src/automation/utils.py] *)
(* ================================================================== *)

Module Utils.

Local Open Scope Z_scope.

(** ** Classes

    The classes [convert_to_array] tests with [isinstance], and the classes
    of the values it is given. *)

Inductive int_width : Type := W8 | W16 | W32 | W64.
Inductive float_width : Type := F16 | F32 | F64.

Inductive pyclass : Type :=
| cls_NoneType
| cls_bool
| cls_int
| cls_float
| cls_str
| cls_date                       (* datetime.date *)
| cls_datetime                   (* datetime.datetime *)
| cls_list
| cls_tuple
| cls_set
| cls_ndarray                    (* np.ndarray *)
| cls_Series                     (* pd.Series *)
| cls_Index                      (* pd.core.indexes.base.Index *)
| cls_np_bool_                   (* np.bool_ *)
| cls_np_int (w : int_width)     (* np.int8 .. np.int64 *)
| cls_np_uint (w : int_width)    (* np.uint8 .. np.uint64 *)
| cls_np_float (w : float_width) (* np.float16 .. np.float64 *)
| cls_np_datetime64
| cls_other (name : string).     (* any other class, by qualified name *)

Definition int_width_eq_dec (a b : int_width) : {a = b} + {a <> b}.
Proof. decide equality. Defined.

Definition float_width_eq_dec (a b : float_width) : {a = b} + {a <> b}.
Proof. decide equality. Defined.

Definition pyclass_eq_dec (a b : pyclass) : {a = b} + {a <> b}.
Proof.
  decide equality;
    first [apply int_width_eq_dec | apply float_width_eq_dec | apply string_dec].
Defined.

Definition same_class (a b : pyclass) : bool :=
  if pyclass_eq_dec a b then true else false.

(** The base class, other than [object] and numpy's abstract scalar
    classes: [bool] derives from [int], [datetime] from [date] and
    [np.float64] from [float]. *)
Definition base (c : pyclass) : option pyclass :=
  match c with
  | cls_bool => Some cls_int
  | cls_datetime => Some cls_date
  | cls_np_float F64 => Some cls_float
  | _ => None
  end.

Definition issubclass (c k : pyclass) : bool :=
  same_class c k ||
  match base c with
  | Some b => same_class b k
  | None => false
  end.

(** The names [np.bool] and [np.bool8] of line 92, as the numpy releases
    that have both define them: [np.bool] is the builtin [bool] and
    [np.bool8] is [np.bool_]. *)
Definition np_bool : pyclass := cls_bool.
Definition np_bool8 : pyclass := cls_np_bool_.

(** ** Dates *)

Record date : Type := mk_date { year : Z; month : Z; day : Z }.

(** [datetime.time] part of a [datetime.datetime]. *)
Record time_of_day : Type :=
  mk_time { hour : Z; minute : Z; second : Z; microsecond : Z }.

Definition is_leapyear (y : Z) : bool :=
  (y mod 4 =? 0) && (negb (y mod 100 =? 0) || (y mod 400 =? 0)).

Definition days_in_month (y m : Z) : Z :=
  if (m =? 2) then (if is_leapyear y then 29 else 28)
  else if (m =? 4) || (m =? 6) || (m =? 9) || (m =? 11) then 30
  else 31.

(** The invariant of [datetime.date] objects. *)
Definition valid_date (d : date) : Prop :=
  1 <= year d <= 9999 /\ 1 <= month d <= 12 /\
  1 <= day d <= days_in_month (year d) (month d).

Definition digit (n : Z) : ascii :=
  ascii_of_nat (48 + Z.to_nat (n mod 10)).

Definition pad2 (n : Z) : string :=
  String (digit (n / 10)) (String (digit n) EmptyString).

Definition pad4 (n : Z) : string :=
  String (digit (n / 1000)) (String (digit (n / 100)) (pad2 n)).

(** [d.strftime("%Y-%m-%d")], with the documented four-digit year. *)
Definition strftime_Ymd (d : date) : string :=
  (pad4 (year d) ++ "-" ++ pad2 (month d) ++ "-" ++ pad2 (day d))%string.

(** ** numpy's reading of a calendar-date string *)

Definition digit_val (c : ascii) : option Z :=
  let n := nat_of_ascii c in
  if (Nat.leb 48 n && Nat.leb n 57)%bool then Some (Z.of_nat (n - 48)) else None.

Definition number2 (a b : ascii) : option Z :=
  match digit_val a, digit_val b with
  | Some x, Some y => Some (10 * x + y)
  | _, _ => None
  end.

Definition number4 (a b c d : ascii) : option Z :=
  match number2 a b, number2 c d with
  | Some x, Some y => Some (100 * x + y)
  | _, _ => None
  end.

(** Leap years among the years [1 .. y-1]. *)
Definition leap_years_before (y : Z) : Z :=
  (y - 1) / 4 - (y - 1) / 100 + (y - 1) / 400.

Definition days_before_year (y : Z) : Z :=
  365 * (y - 1970) + (leap_years_before y - leap_years_before 1970).

Fixpoint days_in_months (y : Z) (n : nat) : Z :=
  match n with
  | O => 0
  | S k => days_in_months y k + days_in_month y (Z.of_nat n)
  end.

(** Days of the year [y] before its month [m]. *)
Definition days_before_month (y m : Z) : Z :=
  days_in_months y (Z.to_nat (m - 1)).

(** The value of a [datetime64[D]]: days since 1970-01-01. *)
Definition days_since_epoch (y m d : Z) : Z :=
  days_before_year y + days_before_month y m + (d - 1).

(** The form [YYYY-MM-DD]; other strings are not dates for the model. *)
Definition parse_iso_date (s : string) : option Z :=
  match s with
  | String y1 (String y2 (String y3 (String y4 (String sep1
      (String m1 (String m2 (String sep2
        (String d1 (String d2 EmptyString))))))))) =>
      if (Ascii.eqb sep1 "-" && Ascii.eqb sep2 "-")%bool then
        match number4 y1 y2 y3 y4, number2 m1 m2, number2 d1 d2 with
        | Some y, Some m, Some d =>
            if ((1 <=? m) && (m <=? 12) && (1 <=? d) && (d <=? days_in_month y m))%bool
            then Some (days_since_epoch y m d)
            else None
        | _, _, _ => None
        end
      else None
  | _ => None
  end.

(** ** Values *)

(** Units of [np.datetime64] scalars, a day or finer. *)
Inductive time_unit : Type :=
| unit_D | unit_h | unit_m | unit_s | unit_ms | unit_us | unit_ns.

Definition ticks_per_day (u : time_unit) : Z :=
  match u with
  | unit_D => 1
  | unit_h => 24
  | unit_m => 1440
  | unit_s => 86400
  | unit_ms => 86400000
  | unit_us => 86400000000
  | unit_ns => 86400000000000
  end.

(** Element types of arrays.  [dt_default] stands for no [dtype] given:
    numpy chooses the type by itself. *)
Inductive dtype : Type :=
| dt_bool
| dt_int (w : int_width)
| dt_uint (w : int_width)
| dt_float (w : float_width)
| dt_str
| dt_datetime64_D               (* "datetime64[D]" *)
| dt_object
| dt_default.

(** Python values.  A float is its IEEE-754 bit pattern; an
    [np.datetime64] is a count of its unit since the epoch, or NaT.
    [PObject] is an instance of a class [convert_to_array] does not know
    and that is neither a sequence nor array-like, identified by its
    address; [PSequence] is an instance of such a class that follows the
    sequence protocol (a [range], a [deque]), with its items.

    An array [NdArray] is its element type and its elements, each shown
    as the Python value it holds; a two-dimensional array has its rows,
    themselves arrays, as elements.  [ArrayOf dt source] is the array
    [np.array(source, dtype=dt)] builds where numpy has to convert the
    elements to a common type or to go into nested sequences in ways the
    model does not compute. *)
#[warnings="-register-all"]
Inductive pyval : Type :=
| PNone
| PBool (b : bool)
| PInt (z : Z)
| PFloat (bits : Z)
| PStr (s : string)
| PDate (d : date)
| PDatetime (d : date) (t : time_of_day)
| PList (xs : list pyval)
| PTuple (xs : list pyval)
| PSet (xs : list pyval)
| PNdarray (a : ndarray)
| PSeries (values : ndarray)
| PIndex (values : ndarray)
| NpBool (b : bool)
| NpInt (w : int_width) (z : Z)
| NpUInt (w : int_width) (z : Z)
| NpFloat (w : float_width) (bits : Z)
| NpDatetime64 (u : time_unit) (v : option Z)
| PObject (cls : string) (ident : nat)
| PSequence (cls : string) (items : list pyval)
with ndarray : Type :=
| NdArray (dt : dtype) (items : list pyval)
| ArrayOf (dt : dtype) (source : list pyval).

(** [type(x)] *)
Definition type_of (x : pyval) : pyclass :=
  match x with
  | PNone => cls_NoneType
  | PBool _ => cls_bool
  | PInt _ => cls_int
  | PFloat _ => cls_float
  | PStr _ => cls_str
  | PDate _ => cls_date
  | PDatetime _ _ => cls_datetime
  | PList _ => cls_list
  | PTuple _ => cls_tuple
  | PSet _ => cls_set
  | PNdarray _ => cls_ndarray
  | PSeries _ => cls_Series
  | PIndex _ => cls_Index
  | NpBool _ => cls_np_bool_
  | NpInt w _ => cls_np_int w
  | NpUInt w _ => cls_np_uint w
  | NpFloat w _ => cls_np_float w
  | NpDatetime64 _ _ => cls_np_datetime64
  | PObject cls _ => cls_other cls
  | PSequence cls _ => cls_other cls
  end.

(** [isinstance(x, (k1, ..., kn))] *)
Definition isinstance (x : pyval) (ks : list pyclass) : bool :=
  existsb (issubclass (type_of x)) ks.

(** ** Exceptions, warnings, and computations that may raise *)

Inductive exn : Type :=
| OverflowError
| ValueError
| AttributeError.

Inductive result (A : Type) : Type :=
| Ok (a : A)
| Fail (e : exn).

Arguments Ok {A} a.
Arguments Fail {A} e.

Definition bind {A B : Type} (r : result A) (k : A -> result B) : result B :=
  match r with
  | Ok a => k a
  | Fail e => Fail e
  end.

Notation "x <- r ;; k" := (bind r (fun x => k))
  (at level 61, r at next level, right associativity).

Fixpoint map_result {A B : Type} (f : A -> result B) (l : list A)
    : result (list B) :=
  match l with
  | [] => Ok []
  | x :: rest =>
      y <- f x ;;
      ys <- map_result f rest ;;
      Ok (y :: ys)
  end.

(** ** The numpy and datetime calls of [convert_to_array] *)

(** [np.dtype(c)] for a class given as [dtype]: [int] is the C long, taken
    as 64 bits; a class numpy does not know stands for [object]. *)
Definition np_dtype (c : pyclass) : dtype :=
  match c with
  | cls_bool | cls_np_bool_ => dt_bool
  | cls_int => dt_int W64
  | cls_float => dt_float F64
  | cls_str => dt_str
  | cls_np_int w => dt_int w
  | cls_np_uint w => dt_uint w
  | cls_np_float w => dt_float w
  | cls_np_datetime64 => dt_datetime64_D
  | _ => dt_object
  end.

Definition bits (w : int_width) : Z :=
  match w with W8 => 8 | W16 => 16 | W32 => 32 | W64 => 64 end.

Definition in_int_range (w : int_width) (z : Z) : bool :=
  (- 2 ^ (bits w - 1) <=? z) && (z <? 2 ^ (bits w - 1)).

(** Storing one item in an array of a given element type [dt] other than
    [object], on the pairs of item and type that [convert_to_array] hands
    to [np.array]: a Python [int] must fit the integer type, a string is
    read as a date for [datetime64[D]], an [np.datetime64] is cut down to
    whole days, and a scalar stored under the type of its own class is
    kept as it is. *)
Definition store (dt : dtype) (x : pyval) : result pyval :=
  match dt, x with
  | dt_int w, PInt z =>
      if in_int_range w z then Ok x else Fail OverflowError
  | dt_datetime64_D, PStr s =>
      match parse_iso_date s with
      | Some n => Ok (NpDatetime64 unit_D (Some n))
      | None => Fail ValueError
      end
  | dt_datetime64_D, NpDatetime64 u v =>
      Ok (NpDatetime64 unit_D (option_map (fun t => t / ticks_per_day u) v))
  | _, _ => Ok x
  end.

(** What numpy goes into when it builds an array: sequences and arrays.
    A number, a string, a set or a plain object is one element. *)
Definition gone_into (x : pyval) : bool :=
  match x with
  | PList _ | PTuple _ | PNdarray _ | PSeries _ | PIndex _
  | PSequence _ _ => true
  | _ => false
  end.

Definition atoms (items : list pyval) : bool :=
  forallb (fun x => negb (gone_into x)) items.

(** The items of a sequence. *)
Definition members (x : pyval) : option (list pyval) :=
  match x with
  | PList xs | PTuple xs | PSequence _ xs => Some xs
  | _ => None
  end.

(** [np.array(items, dtype=object)]: items that are no sequences are kept
    as they are, one element each.  A lone sequence of such items is gone
    into and gives one row, an array of these items.  Deeper nesting is
    left to [ArrayOf]. *)
Definition object_array (items : list pyval) : ndarray :=
  if atoms items then NdArray dt_object items
  else
    match items with
    | [x] =>
        match members x with
        | Some inner =>
            if atoms inner
            then NdArray dt_object [PNdarray (NdArray dt_object inner)]
            else ArrayOf dt_object items
        | None => ArrayOf dt_object items
        end
    | _ => ArrayOf dt_object items
    end.

(** The element type of a scalar taken alone: the one of its class, a
    Python [int] needing to fit the C long. *)
Definition scalar_dtype (x : pyval) : option dtype :=
  match x with
  | PBool _ | NpBool _ => Some dt_bool
  | PInt z => if in_int_range W64 z then Some (dt_int W64) else None
  | PFloat _ => Some (dt_float F64)
  | PStr _ => Some dt_str
  | NpInt w _ => Some (dt_int w)
  | NpUInt w _ => Some (dt_uint w)
  | NpFloat w _ => Some (dt_float w)
  | _ => None
  end.

Definition dtype_eq_dec (a b : dtype) : {a = b} + {a <> b}.
Proof.
  decide equality;
    first [apply int_width_eq_dec | apply float_width_eq_dec].
Defined.

Definition has_dtype (dt : dtype) (x : pyval) : bool :=
  match scalar_dtype x with
  | Some t => if dtype_eq_dec t dt then true else false
  | None => false
  end.

(** [np.array(items)] without [dtype]: no items give an empty array of
    floats; scalars that all have one and the same element type give the
    array of that type holding them.  In every other case numpy converts
    the items to a common type or goes into them, which is left to
    [ArrayOf]. *)
Definition inferred_array (items : list pyval) : ndarray :=
  match items with
  | [] => NdArray (dt_float F64) []
  | x :: rest =>
      match scalar_dtype x with
      | Some dt =>
          if forallb (has_dtype dt) rest then NdArray dt items
          else ArrayOf dt_default items
      | None => ArrayOf dt_default items
      end
  end.

(** [np.array(items, dtype=dt)], and [np.array(items)] for [None]. *)
Definition np_array (items : list pyval) (dt : option dtype) : result ndarray :=
  match dt with
  | None => Ok (inferred_array items)
  | Some dt_object => Ok (object_array items)
  | Some t => xs <- map_result (store t) items ;; Ok (NdArray t xs)
  end.

(** [x.strftime("%Y-%m-%d")] *)
Definition strftime (x : pyval) : result string :=
  match x with
  | PDate d | PDatetime d _ => Ok (strftime_Ymd d)
  | _ => Fail AttributeError
  end.

(** [x.values] *)
Definition values (x : pyval) : result ndarray :=
  match x with
  | PSeries v | PIndex v => Ok v
  | _ => Fail AttributeError
  end.

(** The elements [np.array(x)] iterates over, for a list or a tuple. *)
Definition elements (x : pyval) : result (list pyval) :=
  match x with
  | PList xs | PTuple xs => Ok xs
  | _ => Fail ValueError
  end.

Definition class_name (c : pyclass) : string :=
  match c with
  | cls_NoneType => "NoneType"
  | cls_bool => "bool"
  | cls_int => "int"
  | cls_float => "float"
  | cls_str => "str"
  | cls_date => "datetime.date"
  | cls_datetime => "datetime.datetime"
  | cls_list => "list"
  | cls_tuple => "tuple"
  | cls_set => "set"
  | cls_ndarray => "numpy.ndarray"
  | cls_Series => "pandas.core.series.Series"
  | cls_Index => "pandas.core.indexes.base.Index"
  | cls_np_bool_ => "numpy.bool_"
  | cls_np_int W8 => "numpy.int8"
  | cls_np_int W16 => "numpy.int16"
  | cls_np_int W32 => "numpy.int32"
  | cls_np_int W64 => "numpy.int64"
  | cls_np_uint W8 => "numpy.uint8"
  | cls_np_uint W16 => "numpy.uint16"
  | cls_np_uint W32 => "numpy.uint32"
  | cls_np_uint W64 => "numpy.uint64"
  | cls_np_float F16 => "numpy.float16"
  | cls_np_float F32 => "numpy.float32"
  | cls_np_float F64 => "numpy.float64"
  | cls_np_datetime64 => "numpy.datetime64"
  | cls_other name => name
  end.

(** The message of line 101. *)
Definition not_configured (x : pyval) : string :=
  ("Data type <class '" ++ class_name (type_of x) ++
   "'> is not configured in function.")%string.

(** ** [convert_to_array] *)

(** What one turn of the loop does: it yields an array, after line 101
    issued the warnings listed, or an exception leaves the generator.
    Only the warnings of [convert_to_array] itself are listed, not those
    numpy may issue on its own account. *)
Inductive turn : Type :=
| Yield (a : ndarray) (warnings : list string)
| Raise (e : exn).

Definition yield (r : result ndarray) : turn :=
  match r with
  | Ok a => Yield a []
  | Fail e => Raise e
  end.

Definition warn (msg : string) (t : turn) : turn :=
  match t with
  | Yield a ws => Yield a (msg :: ws)
  | Raise e => Raise e
  end.

(** The body of [for x in args], lines 75-102. *)
Definition convert_one (x : pyval) : turn :=
  if isinstance x [cls_date] then
    yield (s <- strftime x ;; np_array [PStr s] (Some dt_datetime64_D))
  else if isinstance x [cls_ndarray] then
    yield (match x with PNdarray a => Ok a | _ => Fail AttributeError end)
  else if isinstance x [cls_list; cls_tuple] then
    yield (xs <- elements x ;; np_array xs None)
  else if isinstance x [cls_Series; cls_Index; cls_Series] then
    yield (values x)
  else if isinstance x [cls_int; cls_float; cls_str; cls_bool; cls_np_bool_] then
    yield (np_array [x] (Some (np_dtype (type_of x))))
  else if isinstance x [cls_np_int W8; cls_np_int W16; cls_np_int W32; cls_np_int W64] then
    yield (np_array [x] (Some (np_dtype (type_of x))))
  else if isinstance x [cls_np_float F16; cls_np_float F32; cls_np_float F64] then
    yield (np_array [x] (Some (np_dtype (type_of x))))
  else if isinstance x [np_bool; cls_np_bool_; np_bool8] then
    yield (np_array [x] (Some (np_dtype (type_of x))))
  else if isinstance x [cls_np_datetime64] then
    yield (np_array [x] (Some dt_datetime64_D))
  else if match x with PNone => true | _ => false end then
    yield (np_array [] None)
  else
    warn (not_configured x) (yield (np_array [x] (Some dt_object))).

(** The generator object: suspended before the arguments still to be
    converted, or finished. *)
Inductive generator : Type :=
| Suspended (rest : list pyval)
| Finished.

(** Calling [convert_to_array] on its arguments runs nothing yet. *)
Definition convert_to_array (args : list pyval) : generator :=
  Suspended args.

Inductive resumed : Type :=
| Yielded (a : ndarray) (warnings : list string)
| StopIteration
| Raised (e : exn).

(** [next(g)] *)
Definition next (g : generator) : resumed * generator :=
  match g with
  | Suspended (x :: rest) =>
      match convert_one x with
      | Yield a ws => (Yielded a ws, Suspended rest)
      | Raise e => (Raised e, Finished)
      end
  | Suspended [] => (StopIteration, Finished)
  | Finished => (StopIteration, Finished)
  end.

(** Iterating a generator to its end, as tuple unpacking or [list(g)]
    does: the arrays yielded, the warnings issued and the exception that
    ended the iteration, if any. *)
Record run : Type := mk_run {
  arrays : list ndarray;
  warnings : list string;
  failure : option exn
}.

Fixpoint iterate (fuel : nat) (g : generator) : run :=
  match fuel with
  | O => mk_run [] [] None
  | S fuel' =>
      match next g with
      | (Yielded a ws, g') =>
          let r := iterate fuel' g' in
          mk_run (a :: arrays r) (ws ++ warnings r) (failure r)
      | (StopIteration, _) => mk_run [] [] None
      | (Raised e, _) => mk_run [] [] (Some e)
      end
  end.

(** A generator over [n] arguments is exhausted after at most [n + 1]
    calls of [next]. *)
Definition remaining (g : generator) : nat :=
  match g with
  | Suspended rest => List.length rest
  | Finished => O
  end.

Definition exhaust (g : generator) : run :=
  iterate (S (remaining g)) g.

(** ** Vocabulary of the properties *)

(** Arguments the conversion goes through for: a [date] or [datetime]
    object satisfies the invariant of its class, and a Python [int] fits
    the 64-bit integer of [dtype=int]. *)
Definition convertible (x : pyval) : Prop :=
  match x with
  | PInt z => in_int_range W64 z = true
  | PDate d | PDatetime d _ => valid_date d
  | _ => True
  end.

(** Scalars of lines 83-93: the builtin kinds and numpy's fixed-width
    integers, floats and boolean. *)
Definition scalar (x : pyval) : bool :=
  match x with
  | PBool _ | PInt _ | PFloat _ | PStr _
  | NpBool _ | NpInt _ _ | NpFloat _ _ => true
  | _ => false
  end.

(** Every class some [isinstance] test of lines 75-95 names. *)
Definition tested_classes : list pyclass :=
  [cls_date; cls_ndarray; cls_list; cls_tuple; cls_Series; cls_Index;
   cls_int; cls_float; cls_str; cls_bool; cls_np_bool_;
   cls_np_int W8; cls_np_int W16; cls_np_int W32; cls_np_int W64;
   cls_np_float F16; cls_np_float F32; cls_np_float F64;
   np_bool; np_bool8; cls_np_datetime64].

(** A value of a kind the function does not know: it passes none of the
    tests and is not [None]. *)
Definition unrecognized (x : pyval) : bool :=
  negb (isinstance x tested_classes) &&
  match x with PNone => false | _ => true end.

(** The array a calendar date becomes. *)
Definition day_array (d : date) : ndarray :=
  NdArray dt_datetime64_D
    [NpDatetime64 unit_D (Some (days_since_epoch (year d) (month d) (day d)))].

(** ** [print_dict_json] (lines 113-168)

    A dictionary is the list of its items in insertion order, a key being
    shown as [str] shows it.  A value is a dictionary, a string, or
    anything else, given by the text [str] shows for it.  The function
    returns nothing; the model gives the lines it prints. *)












(** ** [get_latest_modified_file] (lines 187-189)

    [list_of_files] is what [glob.glob] returned; [getctime] is
    [os.path.getctime], whose values only need to be ordered. *)

Section Latest.

Variable getctime : string -> Z.

(** [max(..., key=getctime)] keeps the first of the greatest. *)
Fixpoint max_from (best : string) (rest : list string) : string :=
  match rest with
  | [] => best
  | x :: rest' =>
      if getctime best <? getctime x then max_from x rest'
      else max_from best rest'
  end.

Definition get_latest_modified_file (list_of_files : list string)
    : result string :=
  match list_of_files with
  | [] => Fail ValueError
  | x :: rest => Ok (max_from x rest)
  end.

End Latest.

(** ** [csv_to_json] (lines 195-200)

    A row is what [csv.DictReader] yields: the fields of the header with
    the values of one line.  [data] is a [dict], which keeps its keys in
    the order of their first insertion. *)

Definition row : Type := list (string * string).

Fixpoint field (name : string) (r : row) : option string :=
  match r with
  | [] => None
  | (k, v) :: rest => if String.eqb name k then Some v else field name rest
  end.

(** [data[key] = value] *)
Fixpoint dict_set (key : string) (value : row) (data : list (string * row))
    : list (string * row) :=
  match data with
  | [] => [(key, value)]
  | (k, v) :: rest =>
      if String.eqb key k then (k, value) :: rest
      else (k, v) :: dict_set key value rest
  end.

Fixpoint dict_get (key : string) (data : list (string * row)) : option row :=
  match data with
  | [] => None
  | (k, v) :: rest => if String.eqb key k then Some v else dict_get key rest
  end.

Inductive loaded : Type :=
| Data (data : list (string * row))
| KeyError (key : string).

(** The loop of lines 198-200, from the [data] built so far. *)
Fixpoint read_rows (rows : list row) (data : list (string * row)) : loaded :=
  match rows with
  | [] => Data data
  | r :: rest =>
      match field "Date" r with
      | None => KeyError "Date"
      | Some date => read_rows rest (dict_set date r data)
      end
  end.

(** The dictionary [csv_to_json] writes out. *)
Definition csv_to_json_data (rows : list row) : loaded := read_rows rows [].

(** The last of the rows whose [Date] is [date]. *)
Fixpoint last_row_of (date : string) (rows : list row) : option row :=
  match rows with
  | [] => None
  | r :: rest =>
      match last_row_of date rest with
      | Some r' => Some r'
      | None =>
          match field "Date" r with
          | Some d => if String.eqb date d then Some r else None
          | None => None
          end
      end
  end.

(** ** [EmailObject] (lines 212-261, 264-271, 383-391) *)

Inductive email_exn : Type :=
| TypeError (msg : string)
| IndexError (msg : string)
| TooManyColumns.                (* the [ValueError] of line 269 *)

Inductive built (A : Type) : Type :=
| Built (a : A)
| NotBuilt (e : email_exn).

Arguments Built {A} a.
Arguments NotBuilt {A} e.

(** A table as [send_email] uses it: a data frame, known by its name. *)
Inductive frame : Type :=
| DataFrame (name : string)
| FrameOfArray (shape : list Z) (columns : string).

(** The argument [email_table]. *)
Inductive table_arg : Type :=
| TableNone
| TableList (tables : list frame)
| TableArray (shape : list Z)     (* an [np.ndarray], by its shape *)
| TableFrame (f : frame)          (* a [pd.DataFrame] *)
| TableOther (cls : string).

(** The argument [email_image]. *)
Inductive image_arg : Type :=
| ImageNone
| ImageStr (path : string)
| ImageList (paths : list string)
| ImageOther (cls : string).

Definition ascii_letters : string :=
  "abcdefghijklmnopqrstuvwxyzABCDEFGHIJKLMNOPQRSTUVWXYZ".

(** [n > s] for an [int] and a [str]: Python 3 orders no number against a
    string and raises. *)
Definition int_gt_str (n : Z) (s : string) : built bool :=
  NotBuilt (TypeError "'>' not supported between instances of 'int' and 'str'").

(** [_format_table], on an array: [tbl.shape[1]] needs a second
    dimension. *)
Definition _format_table (shape : list Z) : built frame :=
  match nth_error shape 1 with
  | None => NotBuilt (IndexError "tuple index out of range")
  | Some columns =>
      match int_gt_str columns ascii_letters with
      | NotBuilt e => NotBuilt e
      | Built true => NotBuilt TooManyColumns
      | Built false =>
          Built (FrameOfArray shape
                   (substring 0 (Z.to_nat columns) ascii_letters))
      end
  end.

Record email_object : Type := mk_email {
  email_text : option string;
  email_table : option (list frame);
  email_image : image_arg
}.

Definition css : string :=
  "<style>p {font:13px arial; margin-bottom:4px}                    table {border-collapse:collapse; width: 850}                    table, td {text-align: right; border: 1px solid black; font:13px arial; padding-right:5px}                     th { text-align: middle; }</style>".

(** [EmailObject.__init__]; [email_text] is a string or [None]. *)
Definition init_email (text : option string) (table : table_arg)
    (image : image_arg) (add_css : bool) : built email_object :=
  match
    match table with
    | TableNone => Built None
    | TableList tables => Built (Some tables)
    | TableArray shape =>
        match _format_table shape with
        | Built f => Built (Some [f])
        | NotBuilt e => NotBuilt e
        end
    | TableFrame f => Built (Some [f])
    | TableOther _ =>
        NotBuilt (TypeError "Table must be numpy array or pandas data frame")
    end
  with
  | NotBuilt e => NotBuilt e
  | Built tables =>
      match image with
      | ImageOther _ =>
          NotBuilt (TypeError "email_image must be a path str or list of path strings")
      | _ =>
          if add_css then
            match text with
            | Some t =>
                Built (mk_email (Some (css ++ "<p>" ++ t ++ "</p>")%string) tables image)
            | None =>
                NotBuilt (TypeError "can only concatenate str to str")
            end
          else Built (mk_email text tables image)
      end
  end.

(** [s.replace(a, b)] for one-character [a] and [b]. *)
Fixpoint replace_char (a b : ascii) (s : string) : string :=
  match s with
  | EmptyString => EmptyString
  | String c rest =>
      String (if Ascii.eqb c a then b else c) (replace_char a b rest)
  end.

Definition backslash : ascii := ascii_of_nat 92.

(** [hyperlink], lines 385-387. *)
Definition hyperlink (link : string) : string :=
  let html_string :=
    ("<p><a href='" ++ replace_char "/" backslash link ++ "'>")%string in
  (html_string ++ (replace_char "/" backslash link ++ "</a></p>"))%string.

(** The regular expression [<[^<]+?>] of line 391, tried right after a
    ["<"]: the number of characters it takes from [s], closing [">"]
    included.  The first character may be anything but ["<"]; after it the
    first [">"] closes the match, and a ["<"] met before makes it fail. *)
Fixpoint upto_gt (s : string) : option nat :=
  match s with
  | EmptyString => None
  | String c rest =>
      if Ascii.eqb c ">" then Some 1%nat
      else if Ascii.eqb c "<" then None
      else option_map S (upto_gt rest)
  end.

Definition tag_length (s : string) : option nat :=
  match s with
  | EmptyString => None
  | String c rest =>
      if Ascii.eqb c "<" then None else option_map S (upto_gt rest)
  end.

(** [re.sub("<[^<]+?>", "", x)], scanning from the left: [skip] counts
    the characters of a match still to be dropped. *)
Fixpoint strip (skip : nat) (s : string) : string :=
  match s with
  | EmptyString => EmptyString
  | String c rest =>
      match skip with
      | S k => strip k rest
      | O =>
          if Ascii.eqb c "<" then
            match tag_length rest with
            | Some n => strip n rest
            | None => String c (strip 0 rest)
            end
          else String c (strip 0 rest)
      end
  end.

Definition strip_html_tags (x : string) : string := strip 0 x.

Fixpoint has_char (a : ascii) (s : string) : bool :=
  match s with
  | EmptyString => false
  | String c rest => Ascii.eqb c a || has_char a rest
  end.

(** ** [count_py_lines] (lines 394-408), on the folders of [Files] *)

Definition newline : ascii := ascii_of_nat 10.

(** [len(f.readlines())] for a file opened in binary mode: the lines end
    at each newline, and characters after the last newline make one more
    line.  [pending] tells that the current line has characters. *)
Fixpoint readlines_count (pending : bool) (data : string) : nat :=
  match data with
  | EmptyString => if pending then 1%nat else 0%nat
  | String c rest =>
      if Ascii.eqb c newline then S (readlines_count false rest)
      else readlines_count true rest
  end.

(** [item_line_count] on the entry [name] of a folder; the path ends in
    [.py] exactly when the name does.  Printing the path is left out. *)
Fixpoint item_line_count (name : string) (v : Files.node) : nat :=
  match v with
  | Files.Dir entries =>
      (fix dir_line_count (es : list (string * Files.node)) : nat :=
         match es with
         | [] => 0%nat
         | (n, w) :: rest => (item_line_count n w + dir_line_count rest)%nat
         end) entries
  | Files.File data =>
      if Files.endswith name ".py" then readlines_count false data else 0%nat
  end.

Fixpoint dir_line_count (d : Files.folder) : nat :=
  match d with
  | [] => 0%nat
  | (n, w) :: rest => (item_line_count n w + dir_line_count rest)%nat
  end.

Definition count_py_lines (d : Files.folder) : nat := dir_line_count d.

(** The entry [t] of the folder is a directory. *)
Definition dir_at (t : string) (d : Files.folder) : Prop :=
  exists inside, Files.lookup t d = Some (Files.Dir inside).

(** What the two rounds of moves of [arrange_files] keep: distinct names,
    the buckets and the catch-all as directories, and the count. *)
Definition settled (tokens : list string) (c : nat) (d : Files.folder) : Prop :=
  NoDup (Files.names d) /\ dir_line_count d = c /\
  dir_at "others" d /\ (forall t, In t tokens -> dir_at t d).

(** A folder in which no regular file bears the name of a bucket that a
    run of [arrange_files] would ask for. *)
Definition no_file_named_by_token (tokens : list string) (d : Files.folder)
    : Prop :=
  forall t data, In t tokens -> Files.lookup t d <> Some (Files.File data).

End Utils.

(* ================================================================== *)
(** * Properties of [arrange_files] *)
(* ================================================================== *)

Module FilesSpec.

Import Files.

(** ** Strings *)

Lemma substring_length_le :
  forall s n m, String.length (substring n m s) <= m.
Proof.
  induction s as [|c s IH]; intros n m.
  - destruct n, m; simpl; lia.
  - destruct n as [|n].
    + destruct m as [|m]; simpl; [lia|]. specialize (IH 0 m). lia.
    + simpl. apply IH.
Qed.

Lemma substring_whole :
  forall s m, String.length s <= m -> substring 0 m s = s.
Proof.
  induction s as [|c s IH]; intros m Hm.
  - destruct m; reflexivity.
  - destruct m as [|m]; simpl in *; [lia|]. f_equal. apply IH. lia.
Qed.

Lemma last4_length : forall x, String.length (last4 x) <= 4.
Proof. intros x. apply substring_length_le. Qed.

Lemma last4_short : forall x, String.length x <= 4 -> last4 x = x.
Proof.
  intros x Hx. unfold last4.
  replace (String.length x - 4) with 0 by lia.
  now apply substring_whole.
Qed.

Lemma last4_idem : forall x, last4 (last4 x) = last4 x.
Proof. intros x. apply last4_short, last4_length. Qed.

(** ** The loop of lines 46-51 *)

Lemma list_remove_incl :
  forall x t l, In t (list_remove x l) -> In t l.
Proof.
  induction l as [|y l IH]; simpl; [tauto|].
  destruct (String.eqb x y); simpl; intuition.
Qed.

Lemma list_remove_other :
  forall x t l, t <> x -> In t l -> In t (list_remove x l).
Proof.
  induction l as [|y l IH]; simpl; intros Hne Hin; [tauto|].
  destruct (String.eqb x y) eqn:E.
  - apply String.eqb_eq in E. subst y. destruct Hin; [congruence|assumption].
  - destruct Hin; [left; assumption|right; auto].
Qed.

Lemma list_remove_length :
  forall x l, List.length (list_remove x l) <= List.length l.
Proof.
  induction l as [|y l IH]; simpl; [lia|].
  destruct (String.eqb x y); simpl; lia.
Qed.

(** The loop only ever drops tokens. *)
Lemma check_loop_incl :
  forall fuel i l t, In t (check_loop fuel i l) -> In t l.
Proof.
  induction fuel as [|fuel IH]; intros i l t; simpl; [tauto|].
  destruct (nth_error l i) as [ext|]; [|tauto].
  destruct (isalpha (drop1 ext)).
  - apply IH.
  - intros H. apply IH in H. eapply list_remove_incl; eauto.
Qed.

(** It never drops a token that passes the test. *)
Lemma check_loop_keeps_alpha :
  forall fuel i l t,
    isalpha (drop1 t) = true -> In t l -> In t (check_loop fuel i l).
Proof.
  induction fuel as [|fuel IH]; intros i l t Ht Hin; simpl; [assumption|].
  destruct (nth_error l i) as [ext|]; [|assumption].
  destruct (isalpha (drop1 ext)) eqn:E.
  - now apply IH.
  - apply IH; [assumption|]. apply list_remove_other; [|assumption].
    intros ->. congruence.
Qed.

(** [length l] turns are enough: more fuel changes nothing. *)
Lemma check_loop_fuel :
  forall fuel i l k,
    List.length l <= i + fuel ->
    check_loop (fuel + k) i l = check_loop fuel i l.
Proof.
  induction fuel as [|fuel IH]; intros i l k Hlen.
  - simpl. destruct k as [|k]; [reflexivity|]. simpl.
    assert (nth_error l i = None) as -> by (apply nth_error_None; lia).
    reflexivity.
  - simpl. destruct (nth_error l i) as [ext|] eqn:E; [|reflexivity].
    destruct (isalpha (drop1 ext)).
    + apply IH. lia.
    + apply IH. pose proof (list_remove_length ext l). lia.
Qed.

Lemma check_exts_fuel :
  forall l k, check_loop (List.length l + k) 0 l = check_exts l.
Proof. intros l k. apply check_loop_fuel. lia. Qed.

(** What a token of [file_exts] looks like: it is the last four characters
    of a listed name and starts with a dot. *)
Lemma file_exts_inv :
  forall l t,
    In t (file_exts l) ->
    starts_with_dot t = true /\ exists x, In x l /\ t = last4 x.
Proof.
  intros l t H. unfold file_exts in H.
  apply nodup_In in H. apply check_loop_incl in H.
  apply filter_In in H. destruct H as [H Hdot]. split; [assumption|].
  apply in_map_iff in H. destruct H as (x & <- & Hx). eauto.
Qed.

Lemma file_exts_alpha :
  forall l x,
    In x l ->
    starts_with_dot (last4 x) = true ->
    isalpha (drop1 (last4 x)) = true ->
    In (last4 x) (file_exts l).
Proof.
  intros l x Hx Hdot Halpha. unfold file_exts.
  apply nodup_In. apply check_loop_keeps_alpha; [assumption|].
  apply filter_In. split; [|assumption]. now apply in_map.
Qed.

Lemma token_last4 : forall l t, In t (file_exts l) -> last4 t = t.
Proof.
  intros l t H. apply file_exts_inv in H.
  destruct H as (_ & x & _ & ->). apply last4_idem.
Qed.

(** ** Looking up an entry after the folder changed *)

Lemma lookup_app_one :
  forall t n v d,
    lookup t (d ++ [(n, v)]) =
    match lookup t d with
    | Some w => Some w
    | None => if String.eqb t n then Some v else None
    end.
Proof.
  induction d as [|[m w] d IH]; simpl.
  - reflexivity.
  - destruct (String.eqb t m); [reflexivity|apply IH].
Qed.

Lemma lookup_remove_other :
  forall t s d, t <> s -> lookup t (remove_entry s d) = lookup t d.
Proof.
  intros t s d Hne. induction d as [|[m w] d IH]; simpl; [reflexivity|].
  destruct (String.eqb s m) eqn:E; simpl.
  - apply String.eqb_eq in E. subst m.
    apply String.eqb_neq in Hne. rewrite Hne. apply IH.
  - destruct (String.eqb t m); [reflexivity|apply IH].
Qed.

Lemma lookup_set_same :
  forall t v d,
    lookup t (set_entry t v d) = option_map (fun _ => v) (lookup t d).
Proof.
  intros t v d. induction d as [|[m w] d IH]; simpl; [reflexivity|].
  destruct (String.eqb t m) eqn:E; simpl; rewrite E; [reflexivity|apply IH].
Qed.

Lemma lookup_set_other :
  forall t s v d, t <> s -> lookup t (set_entry s v d) = lookup t d.
Proof.
  intros t s v d Hne. induction d as [|[m w] d IH]; simpl; [reflexivity|].
  destruct (String.eqb s m) eqn:E; simpl.
  - apply String.eqb_eq in E. subst m.
    apply String.eqb_neq in Hne. rewrite Hne. apply IH.
  - destruct (String.eqb t m); [reflexivity|apply IH].
Qed.

Lemma lookup_rename_other :
  forall t src dst d,
    t <> src -> t <> dst -> lookup t (rename_entry src dst d) = lookup t d.
Proof.
  intros t src dst d Hs Hd. induction d as [|[m w] d IH]; simpl; [reflexivity|].
  destruct (String.eqb src m) eqn:E; simpl.
  - apply String.eqb_eq in E. subst m.
    apply String.eqb_neq in Hs, Hd. rewrite Hs, Hd. apply IH.
  - destruct (String.eqb t m); [reflexivity|apply IH].
Qed.

(** ** Entries that survive *)

Lemma kept_refl : forall t d, kept t d d.
Proof. intros t d v H. eauto. Qed.

Lemma kept_trans :
  forall t d1 d2 d3, kept t d1 d2 -> kept t d2 d3 -> kept t d1 d3.
Proof.
  intros t d1 d2 d3 H12 H23 v Hv.
  destruct (H12 v Hv) as (v2 & Hv2 & E2).
  destruct (H23 v2 Hv2) as (v3 & Hv3 & E3).
  exists v3. split; [assumption|congruence].
Qed.

Lemma kept_same_lookup :
  forall t d d', lookup t d' = lookup t d -> kept t d d'.
Proof. intros t d d' E v Hv. exists v. split; congruence. Qed.

(** [shutil.move] takes an entry away only as its source; an entry that is
    the destination stays what it is. *)
Lemma shutil_move_kept :
  forall t src dst d,
    (src = t -> dst = t) ->
    kept t d (final (shutil_move src dst d)).
Proof.
  intros t src dst d Hsrc. unfold shutil_move.
  destruct (lookup dst d) as [[data|inside]|] eqn:Edst.
  - (* the destination is a regular file *)
    destruct (lookup src d) as [[sdata|sin]|] eqn:Esrc; simpl;
      try apply kept_refl.
    destruct (String.eqb src dst) eqn:E; simpl; [apply kept_refl|].
    apply String.eqb_neq in E.
    destruct (string_dec t dst) as [->|Hd].
    + intros v Hv. rewrite lookup_set_same, lookup_remove_other by congruence.
      rewrite Hv. simpl. exists (File sdata). split; [reflexivity|].
      rewrite Edst in Hv. now inversion Hv.
    + assert (t <> src) by (intros Hts; apply Hd; symmetry; apply Hsrc; congruence).
      apply kept_same_lookup.
      now rewrite lookup_set_other, lookup_remove_other.
  - (* the destination is a directory *)
    destruct (String.eqb src dst) eqn:E; simpl; [apply kept_refl|].
    apply String.eqb_neq in E.
    destruct (lookup src inside); simpl; [apply kept_refl|].
    destruct (lookup src d) as [sv|] eqn:Esrc; simpl; [|apply kept_refl].
    destruct (string_dec t dst) as [->|Hd].
    + intros v Hv. rewrite lookup_set_same, lookup_remove_other by congruence.
      rewrite Hv. simpl. eexists. split; [reflexivity|].
      rewrite Edst in Hv. now inversion Hv.
    + assert (t <> src) by (intros Hts; apply Hd; symmetry; apply Hsrc; congruence).
      apply kept_same_lookup.
      now rewrite lookup_set_other, lookup_remove_other.
  - (* there is no destination: a plain rename *)
    destruct (lookup src d) as [sv|] eqn:Esrc; simpl; [|apply kept_refl].
    destruct (string_dec t dst) as [->|Hd].
    + intros v Hv. congruence.
    + assert (t <> src) by (intros Hts; apply Hd; symmetry; apply Hsrc; congruence).
      apply kept_same_lookup. now rewrite lookup_rename_other.
Qed.

Lemma bind_kept :
  forall t d o k,
    kept t d (final o) ->
    (forall d', kept t d' (final (k d'))) ->
    kept t d (final (o >>= k)).
Proof.
  intros t d [d1|e d1] k Ho Hk; simpl in *.
  - eapply kept_trans; eauto.
  - assumption.
Qed.

Lemma for_each_kept :
  forall (A : Type) t (xs : list A) body,
    (forall x d, In x xs -> kept t d (final (body x d))) ->
    forall d, kept t d (final (for_each xs body d)).
Proof.
  intros A t xs body. induction xs as [|x xs IH]; intros Hbody d; simpl.
  - apply kept_refl.
  - apply bind_kept.
    + apply Hbody. now left.
    + intros d'. apply IH. intros y d'' Hy. apply Hbody. now right.
Qed.

(** ** Buckets (lines 56-60) *)

Lemma make_bucket_kept : forall t n d, kept t d (make_bucket d n).
Proof.
  intros t n d. unfold make_bucket, makedirs.
  destruct (lookup n d) eqn:E; [apply kept_refl|].
  intros v Hv. exists v. split; [|reflexivity].
  rewrite lookup_app_one, Hv. reflexivity.
Qed.

Lemma make_buckets_kept :
  forall t ns d, kept t d (fold_left make_bucket ns d).
Proof.
  intros t ns. induction ns as [|n ns IH]; intros d; simpl.
  - apply kept_refl.
  - eapply kept_trans; [apply make_bucket_kept|apply IH].
Qed.

Lemma make_bucket_made :
  forall t d,
    exists v, lookup t (make_bucket d t) = Some v /\ is_dir v = bucket_kind t d.
Proof.
  intros t d. unfold make_bucket, makedirs, bucket_kind.
  destruct (lookup t d) as [v|] eqn:E.
  - exists v. split; [assumption|reflexivity].
  - exists (Dir []). split; [|reflexivity].
    rewrite lookup_app_one, E, String.eqb_refl. reflexivity.
Qed.

Lemma make_buckets_made :
  forall t ns d,
    In t ns ->
    exists v, lookup t (fold_left make_bucket ns d) = Some v /\
              is_dir v = bucket_kind t d.
Proof.
  intros t ns. induction ns as [|n ns IH]; intros d Hin; simpl; [destruct Hin|].
  destruct (string_dec n t) as [->|Hne].
  - destruct (make_bucket_made t d) as (v & Hv & Ev).
    destruct (make_buckets_kept t ns (make_bucket d t) v Hv) as (v' & Hv' & Ev').
    exists v'. split; [assumption|congruence].
  - destruct Hin as [->|Hin]; [congruence|].
    destruct (IH (make_bucket d n) Hin) as (v & Hv & Ev).
    exists v. split; [assumption|]. rewrite Ev.
    unfold bucket_kind, make_bucket, makedirs.
    destruct (lookup n d); [reflexivity|].
    rewrite lookup_app_one.
    destruct (lookup t d); [reflexivity|].
    assert (String.eqb t n = false) as -> by (apply String.eqb_neq; congruence).
    reflexivity.
Qed.

(** ** The two rounds of moves *)

Lemma not_in_spec : forall l x, not_in l x = true -> ~ In x l.
Proof.
  intros l x H Hin. unfold not_in in H. apply negb_true_iff in H.
  assert (existsb (String.eqb x) l = true) as E.
  { apply existsb_exists. exists x. split; [assumption|apply String.eqb_refl]. }
  congruence.
Qed.

(** Lines 62-65 leave [t] in place when no bucket other than [t] itself
    claims it. *)
Lemma move_by_ext_kept :
  forall t lst_files lst_file_ext,
    (forall e, In e lst_file_ext -> last4 t = e -> e = t) ->
    forall d, kept t d (final (move_by_ext lst_files lst_file_ext d)).
Proof.
  intros t lst_files lst_file_ext Ht d. unfold move_by_ext.
  apply for_each_kept. intros file d1 _.
  apply for_each_kept. intros e d2 He.
  destruct (String.eqb (last4 file) e) eqn:E; [|apply kept_refl].
  apply String.eqb_eq in E. apply shutil_move_kept.
  intros ->. now apply Ht.
Qed.

(** Lines 67-72 leave the buckets and ["others"] in place. *)
Lemma move_misc_kept :
  forall ls t lst_file_ext,
    In t lst_file_ext \/ t = "others" ->
    forall d, kept t d (final (move_misc ls lst_file_ext d)).
Proof.
  intros ls t lst_file_ext Ht d. unfold move_misc.
  apply for_each_kept. intros misc_file d1 Hm.
  apply filter_In in Hm. destruct Hm as [_ Hm]. apply not_in_spec in Hm.
  apply shutil_move_kept. intros ->.
  destruct Ht as [Ht| ->]; [contradiction|reflexivity].
Qed.

Lemma rounds_kept_token :
  forall ls l t lst_files d,
    In t (file_exts l) ->
    kept t d (final (move_by_ext lst_files (file_exts l) d
                     >>= move_misc ls (file_exts l))).
Proof.
  intros ls l t lst_files d Ht. apply bind_kept.
  - apply move_by_ext_kept. intros e _ He.
    rewrite (token_last4 l t Ht) in He. congruence.
  - intros d'. apply move_misc_kept. now left.
Qed.

Lemma rounds_kept_others :
  forall ls l lst_files d,
    kept "others" d (final (move_by_ext lst_files (file_exts l) d
                            >>= move_misc ls (file_exts l))).
Proof.
  intros ls l lst_files d. apply bind_kept.
  - apply move_by_ext_kept. intros e He E.
    apply file_exts_inv in He. destruct He as [Hdot _].
    subst e. discriminate Hdot.
  - intros d'. apply move_misc_kept. now right.
Qed.

(** ** The whole of [arrange_files] *)

(** The guard of lines 36-40. *)
Lemma guard_raises_unchanged :
  forall ls misc_folder_name d v,
    lookup misc_folder_name d = Some v ->
    exists msg,
      arrange_files ls misc_folder_name d = Raised (FileExistsError msg) d.
Proof.
  intros ls misc d v H. unfold arrange_files, makedirs. rewrite H.
  eexists. reflexivity.
Qed.

(** Every token of the listing has its entry at the end of the run, be it
    that the run returned or raised on the way; the entry is a directory
    unless a regular file of that name was there before. *)
Lemma bucket_for_every_token :
  forall ls misc_folder_name d t,
    lookup misc_folder_name d = None ->
    In t (file_exts (listdir ls (d ++ [(misc_folder_name, Dir [])]))) ->
    exists v,
      lookup t (final (arrange_files ls misc_folder_name d)) = Some v /\
      is_dir v = bucket_kind t d.
Proof.
  intros ls misc d t Hmisc Ht. unfold arrange_files, makedirs. rewrite Hmisc.
  set (d1 := d ++ [(misc, Dir [])]) in *.
  set (lst_files := listdir ls d1) in *.
  destruct (make_buckets_made t (file_exts lst_files) d1 Ht) as (v & Hv & Ev).
  destruct (rounds_kept_token ls lst_files t lst_files _ Ht v Hv)
    as (v' & Hv' & Ev').
  exists v'. split; [exact Hv'|]. rewrite Ev', Ev.
  unfold bucket_kind, d1. rewrite lookup_app_one.
  destruct (lookup t d); [reflexivity|].
  destruct (String.eqb t misc); reflexivity.
Qed.

(** With the default name the catch-all is still there after the run. *)
Lemma others_persists :
  forall ls d,
    exists v, lookup "others" (final (arrange_files ls "others" d)) = Some v.
Proof.
  intros ls d. unfold arrange_files, makedirs.
  destruct (lookup "others" d) as [v|] eqn:E; simpl.
  - eauto.
  - set (d1 := d ++ [("others", Dir [])]).
    assert (lookup "others" d1 = Some (Dir [])) as H1.
    { unfold d1. rewrite lookup_app_one, E. reflexivity. }
    destruct (make_buckets_kept "others" (file_exts (listdir ls d1)) d1 _ H1)
      as (v2 & H2 & _).
    destruct (rounds_kept_others ls (listdir ls d1) (listdir ls d1) _ v2 H2)
      as (v3 & H3 & _).
    eauto.
Qed.

(** Hence a second run with the default name stops at the guard and
    changes nothing. *)
Lemma default_name_second_run_raises :
  forall ls d,
    let first := arrange_files ls "others" d in
    exists msg,
      arrange_files ls "others" (final first) =
      Raised (FileExistsError msg) (final first).
Proof.
  intros ls d first. destruct (others_persists ls d) as (v & Hv).
  eapply guard_raises_unchanged. exact Hv.
Qed.

(** Without tokens the first round moves nothing. *)
Lemma move_by_ext_nil :
  forall lst_files d, move_by_ext lst_files [] d = Returned d.
Proof.
  unfold move_by_ext.
  induction lst_files as [|f l IH]; intros d; simpl; [reflexivity|apply IH].
Qed.

(** ** Listings in any order *)

Lemma Permutation_filter_compat :
  forall (A : Type) (f : A -> bool) (l l' : list A),
    Permutation l l' -> Permutation (filter f l) (filter f l').
Proof.
  intros A f l l' H. induction H; simpl.
  - constructor.
  - destruct (f x); [now constructor|assumption].
  - destruct (f x), (f y); try apply Permutation_refl. apply perm_swap.
  - eapply Permutation_trans; eassumption.
Qed.

Lemma candidates_permuted :
  forall ls l,
    (forall l0, Permutation (ls l0) l0) ->
    Permutation (filter starts_with_dot (map last4 l))
                (filter starts_with_dot (map last4 (ls l))).
Proof.
  intros ls l Hls. apply Permutation_filter_compat, Permutation_map.
  apply Permutation_sym, Hls.
Qed.

Lemma stored_order_lists_all :
  forall l y, In y l -> In y (stored_order l).
Proof. intros l y H. exact H. Qed.

Lemma stored_order_perm : forall l, Permutation (stored_order l) l.
Proof. intros l. apply Permutation_refl. Qed.

(** ** The worked example, default catch-all name *)

Lemma example_run :
  arrange_files stored_order "others" example_folder =
  Returned [("others", Dir [("readme", File "R")]);
            (".txt", Dir [("a.txt", File "A"); ("b.txt", File "B")]);
            (".csv", Dir [("c.csv", File "C")])].
Proof. reflexivity. Qed.

(** ** Claims *)

(** C3, as stated, fails: after arranging the example folder there is no
    bucket [txt] and no bucket [csv]; the buckets are [.txt] and [.csv]. *)
Lemma C3_no_bucket_without_dot :
  let after := final (arrange_files stored_order "others" example_folder) in
  lookup "txt" after = None /\ lookup "csv" after = None /\
  lookup ".txt" after = Some (Dir [("a.txt", File "A"); ("b.txt", File "B")]) /\
  lookup ".csv" after = Some (Dir [("c.csv", File "C")]).
Proof. repeat split; reflexivity. Qed.

(** C3, amended: for every entry of the folder whose last four characters
    form a valid extension token (a dot, then letters), [arrange_files]
    leaves an entry named by that token, leading dot included, in the
    folder; it is a directory unless a regular file of that name was
    already there, and a bucket that exists already is put up with.  On the
    files a.txt, b.txt, c.csv and readme the buckets are [.txt], holding
    a.txt and b.txt, and [.csv], holding c.csv; an existing directory
    [.txt] receives a.txt. *)
Theorem C3_bucket_named_by_dotted_token :
  forall ls misc_folder_name d x,
    (forall l y, In y l -> In y (ls l)) ->
    lookup misc_folder_name d = None ->
    In x (names d) ->
    valid_token (last4 x) = true ->
    (exists v,
       lookup (last4 x) (final (arrange_files ls misc_folder_name d)) = Some v /\
       is_dir v = bucket_kind (last4 x) d) /\
    arrange_files stored_order "others" example_folder =
      Returned [("others", Dir [("readme", File "R")]);
                (".txt", Dir [("a.txt", File "A"); ("b.txt", File "B")]);
                (".csv", Dir [("c.csv", File "C")])] /\
    arrange_files stored_order "others"
        [(".txt", Dir [("old.txt", File "O")]); ("a.txt", File "A")] =
      Returned [(".txt", Dir [("old.txt", File "O"); ("a.txt", File "A")]);
                ("others", Dir [])].
Proof.
  intros ls misc d x Hls Hmisc Hx Hvalid.
  split; [|split; reflexivity].
  apply andb_true_iff in Hvalid. destruct Hvalid as [Hdot Halpha].
  apply bucket_for_every_token; [assumption|].
  apply file_exts_alpha; [|assumption|assumption].
  unfold listdir. apply Hls. unfold names. rewrite map_app.
  apply in_or_app. now left.
Qed.

Lemma C3_bucket_named_by_dotted_token_witness :
  (exists v,
     lookup (last4 "a.txt")
       (final (arrange_files stored_order "others" example_folder)) = Some v /\
     is_dir v = bucket_kind (last4 "a.txt") example_folder) /\
  arrange_files stored_order "others" example_folder =
    Returned [("others", Dir [("readme", File "R")]);
              (".txt", Dir [("a.txt", File "A"); ("b.txt", File "B")]);
              (".csv", Dir [("c.csv", File "C")])] /\
  arrange_files stored_order "others"
      [(".txt", Dir [("old.txt", File "O")]); ("a.txt", File "A")] =
    Returned [(".txt", Dir [("old.txt", File "O"); ("a.txt", File "A")]);
              ("others", Dir [])].
Proof.
  apply (C3_bucket_named_by_dotted_token stored_order "others" example_folder "a.txt").
  - exact stored_order_lists_all.
  - reflexivity.
  - simpl. left. reflexivity.
  - reflexivity.
Defined.

(** C5 on the code: two entries that end in [.mp3].  The token [.mp3] is
    not alphabetic after its dot, yet it survives the loop of lines 46-51
    (removing the first copy makes the iterator step over the second), and
    a bucket [.mp3] is created and filled, whatever the listing order. *)
Theorem C5_digit_suffix_gets_bucket :
  forall ls,
    (forall l, Permutation (ls l) l) ->
    let d := [("a.mp3", File "A"); ("b.mp3", File "B")] in
    valid_token ".mp3" = false /\
    check_exts [".mp3"; ".mp3"] = [".mp3"] /\
    lookup ".mp3" d = None /\
    (exists inside,
       lookup ".mp3" (final (arrange_files ls "others" d)) = Some (Dir inside)) /\
    arrange_files stored_order "others" d =
      Returned [("others", Dir []);
                (".mp3", Dir [("a.mp3", File "A"); ("b.mp3", File "B")])].
Proof.
  intros ls Hls d.
  split; [reflexivity|]. split; [reflexivity|]. split; [reflexivity|].
  split; [|reflexivity].
  assert (In ".mp3" (file_exts (listdir ls (d ++ [("others", Dir [])])))) as Hin.
  { unfold file_exts, listdir.
    pose proof (candidates_permuted ls (names (d ++ [("others", Dir [])])) Hls) as HP.
    change (filter starts_with_dot (map last4 (names (d ++ [("others", Dir [])]))))
      with [".mp3"; ".mp3"] in HP.
    apply Permutation_length_2_inv in HP.
    assert (filter starts_with_dot
              (map last4 (ls (names (d ++ [("others", Dir [])])))) =
            [".mp3"; ".mp3"]) as -> by (destruct HP; assumption).
    simpl. now left. }
  destruct (bucket_for_every_token ls "others" d ".mp3" eq_refl Hin)
    as (v & Hv & Ev).
  destruct v as [data|inside]; [discriminate Ev|].
  exists inside. exact Hv.
Qed.

Lemma C5_digit_suffix_gets_bucket_witness :
  let d := [("a.mp3", File "A"); ("b.mp3", File "B")] in
  valid_token ".mp3" = false /\
  check_exts [".mp3"; ".mp3"] = [".mp3"] /\
  lookup ".mp3" d = None /\
  (exists inside,
     lookup ".mp3" (final (arrange_files stored_order "others" d)) =
     Some (Dir inside)) /\
  arrange_files stored_order "others" d =
    Returned [("others", Dir []);
              (".mp3", Dir [("a.mp3", File "A"); ("b.mp3", File "B")])].
Proof.
  apply (C5_digit_suffix_gets_bucket stored_order). exact stored_order_perm.
Defined.

(** C2 on the code: a folder with the single file readme, arranged with
    the catch-all name [new_others].  Line 72 moves to the literal
    ["others"], so readme never reaches [new_others]: depending on the
    listing order either readme is renamed to [others] and the move of
    [new_others] onto that file raises, or [new_others] is renamed to
    [others] and readme lands in it. *)
Theorem C2_misc_goes_to_literal_others :
  forall ls,
    (forall l, Permutation (ls l) l) ->
    let o := arrange_files ls "new_others" [("readme", File "R")] in
    (o = Raised (FileExistsError "others")
           [("others", File "R"); ("new_others", Dir [])] \/
     o = Returned [("others", Dir [("readme", File "R")])]) /\
    (forall inside,
       lookup "new_others" (final o) = Some (Dir inside) ->
       lookup "readme" inside = None).
Proof.
  intros ls Hls o.
  assert (o = Raised (FileExistsError "others")
                [("others", File "R"); ("new_others", Dir [])] \/
          o = Returned [("others", Dir [("readme", File "R")])]) as Ho.
  { unfold o, arrange_files, listdir. simpl.
    assert (file_exts (ls ["readme"; "new_others"]) = []) as ->.
    { destruct (Permutation_length_2_inv (Permutation_sym (Hls ["readme"; "new_others"])))
        as [-> | ->]; reflexivity. }
    simpl. rewrite move_by_ext_nil. simpl. unfold move_misc, listdir. simpl.
    destruct (Permutation_length_2_inv (Permutation_sym (Hls ["readme"; "new_others"])))
      as [-> | ->]; [left|right]; reflexivity. }
  split; [exact Ho|].
  intros inside. destruct Ho as [-> | ->]; simpl; [|discriminate].
  intros H. inversion H. reflexivity.
Qed.

Lemma C2_misc_goes_to_literal_others_witness :
  let o := arrange_files stored_order "new_others" [("readme", File "R")] in
  (o = Raised (FileExistsError "others")
         [("others", File "R"); ("new_others", Dir [])] \/
   o = Returned [("others", Dir [("readme", File "R")])]) /\
  (forall inside,
     lookup "new_others" (final o) = Some (Dir inside) ->
     lookup "readme" inside = None).
Proof.
  apply (C2_misc_goes_to_literal_others stored_order). exact stored_order_perm.
Defined.

(** C4 on the code: an empty folder arranged twice with the catch-all name
    [new_others].  The first run renames the catch-all to [others]
    (line 72), so the second run finds no [new_others], passes the guard
    and changes the folder again. *)
Theorem C4_second_run_passes_guard :
  forall ls,
    (forall l, Permutation (ls l) l) ->
    arrange_files ls "new_others" [] = Returned [("others", Dir [])] /\
    arrange_files ls "new_others" [("others", Dir [])] =
      Returned [("others", Dir [("new_others", Dir [])])].
Proof.
  intros ls Hls.
  pose proof (Permutation_length_1_inv (Permutation_sym (Hls ["new_others"]))) as H1.
  split.
  - unfold arrange_files, listdir. simpl. rewrite H1.
    change (file_exts ["new_others"]) with (@nil string). simpl.
    unfold move_misc, listdir. simpl. rewrite H1. reflexivity.
  - unfold arrange_files, listdir. simpl.
    assert (file_exts (ls ["others"; "new_others"]) = []) as ->.
    { destruct (Permutation_length_2_inv (Permutation_sym (Hls ["others"; "new_others"])))
        as [-> | ->]; reflexivity. }
    simpl. rewrite move_by_ext_nil. simpl. unfold move_misc, listdir. simpl.
    destruct (Permutation_length_2_inv (Permutation_sym (Hls ["others"; "new_others"])))
      as [-> | ->]; reflexivity.
Qed.

Lemma C4_second_run_passes_guard_witness :
  arrange_files stored_order "new_others" [] = Returned [("others", Dir [])] /\
  arrange_files stored_order "new_others" [("others", Dir [])] =
    Returned [("others", Dir [("new_others", Dir [])])].
Proof.
  apply (C4_second_run_passes_guard stored_order). exact stored_order_perm.
Defined.

End FilesSpec.

(* ================================================================== *)
(** * Properties of [convert_to_array] *)
(* ================================================================== *)

Module UtilsSpec.

Import Utils.

Local Open Scope Z_scope.

(** ** A date printed by [strftime] is read back by numpy *)

Lemma digit_val_digit : forall n, digit_val (digit n) = Some (n mod 10).
Proof.
  intros n. unfold digit_val, digit.
  assert (0 <= n mod 10 < 10) as Hn by (apply Z.mod_pos_bound; lia).
  rewrite nat_ascii_embedding by lia.
  replace (48 + Z.to_nat (n mod 10) - 48)%nat with (Z.to_nat (n mod 10)) by lia.
  assert (Nat.leb 48 (48 + Z.to_nat (n mod 10)) = true) as ->
    by (apply Nat.leb_le; lia).
  assert (Nat.leb (48 + Z.to_nat (n mod 10)) 57 = true) as ->
    by (apply Nat.leb_le; lia).
  simpl. f_equal. lia.
Qed.

Lemma number2_digits :
  forall a b, number2 (digit a) (digit b) = Some (10 * (a mod 10) + b mod 10).
Proof.
  intros a b. unfold number2. now rewrite !digit_val_digit.
Qed.

Lemma number2_pad2 :
  forall n, 0 <= n < 100 -> number2 (digit (n / 10)) (digit n) = Some n.
Proof.
  intros n Hn. rewrite number2_digits. f_equal.
  pose proof (Z.div_mod n 10). pose proof (Z.mod_pos_bound n 10).
  assert (0 <= n / 10 < 10) by (split; [apply Z.div_pos|apply Z.div_lt_upper_bound]; lia).
  rewrite (Z.mod_small (n / 10) 10) by lia. lia.
Qed.

Lemma number4_pad4 :
  forall n, 0 <= n < 10000 ->
    number4 (digit (n / 1000)) (digit (n / 100)) (digit (n / 10)) (digit n) = Some n.
Proof.
  intros n Hn. unfold number4. rewrite !number2_digits. f_equal.
  Z.div_mod_to_equations. lia.
Qed.

Lemma parse_strftime :
  forall d,
    valid_date d ->
    parse_iso_date (strftime_Ymd d) =
    Some (days_since_epoch (year d) (month d) (day d)).
Proof.
  intros [y m dd] (Hy & Hm & Hd). simpl in Hy, Hm, Hd.
  assert (1 <= dd <= 31) as Hd'.
  { unfold days_in_month in Hd.
    destruct (m =? 2); [destruct (is_leapyear y)|destruct ((m =? 4) || (m =? 6) || (m =? 9) || (m =? 11))%bool]; lia. }
  unfold strftime_Ymd, pad4, pad2, parse_iso_date. cbn [year month day append].
  cbn [Ascii.eqb Bool.eqb andb].
  rewrite number4_pad4 by lia. rewrite !number2_pad2 by lia.
  assert ((1 <=? m) = true) as -> by (apply Z.leb_le; lia).
  assert ((m <=? 12) = true) as -> by (apply Z.leb_le; lia).
  assert ((1 <=? dd) = true) as -> by (apply Z.leb_le; lia).
  assert ((dd <=? days_in_month y m) = true) as -> by (apply Z.leb_le; lia).
  reflexivity.
Qed.

(** ** One turn of the loop, kind by kind *)

Lemma convert_date :
  forall d, valid_date d -> convert_one (PDate d) = Yield (day_array d) [].
Proof.
  intros d Hd.
  change (convert_one (PDate d))
    with (yield (xs <- map_result (store dt_datetime64_D) [PStr (strftime_Ymd d)] ;;
                 Ok (NdArray dt_datetime64_D xs))).
  cbn [map_result store bind]. rewrite (parse_strftime d Hd). reflexivity.
Qed.

Lemma convert_datetime :
  forall d t, valid_date d -> convert_one (PDatetime d t) = Yield (day_array d) [].
Proof.
  intros d t Hd.
  change (convert_one (PDatetime d t))
    with (yield (xs <- map_result (store dt_datetime64_D) [PStr (strftime_Ymd d)] ;;
                 Ok (NdArray dt_datetime64_D xs))).
  cbn [map_result store bind]. rewrite (parse_strftime d Hd). reflexivity.
Qed.

Lemma convert_int :
  forall z,
    convert_one (PInt z) =
    if in_int_range W64 z then Yield (NdArray (dt_int W64) [PInt z]) []
    else Raise OverflowError.
Proof.
  intros z.
  change (convert_one (PInt z))
    with (yield (xs <- map_result (store (dt_int W64)) [PInt z] ;;
                 Ok (NdArray (dt_int W64) xs))).
  cbn [map_result store bind]. destruct (in_int_range W64 z); reflexivity.
Qed.

Lemma convert_scalar :
  forall x,
    scalar x = true -> convertible x ->
    convert_one x = Yield (NdArray (np_dtype (type_of x)) [x]) [].
Proof.
  intros x Hs Hc. destruct x; try discriminate Hs.
  - reflexivity.
  - rewrite convert_int. simpl in Hc. rewrite Hc. reflexivity.
  - reflexivity.
  - reflexivity.
  - reflexivity.
  - destruct w; reflexivity.
  - destruct w; reflexivity.
Qed.



(** On a convertible argument the turn ends in a [yield]. *)
Lemma convert_yields :
  forall x, convertible x -> exists a ws, convert_one x = Yield a ws.
Proof.
  intros x Hc. destruct x;
    try (eexists; eexists; reflexivity);
    try (destruct w; eexists; eexists; reflexivity).
  - rewrite convert_int. simpl in Hc. rewrite Hc. eauto.
  - rewrite (convert_date d Hc). eauto.
  - rewrite (convert_datetime d t Hc). eauto.
Qed.

(** ** The generator *)

Lemma exhaust_yield :
  forall x rest a ws,
    convert_one x = Yield a ws ->
    exhaust (convert_to_array (x :: rest)) =
    let r := exhaust (convert_to_array rest) in
    mk_run (a :: arrays r) (ws ++ warnings r) (failure r).
Proof.
  intros x rest a ws H. unfold exhaust, convert_to_array.
  cbn [remaining List.length]. cbn [iterate next]. rewrite H. reflexivity.
Qed.

Lemma exhaust_raise :
  forall x rest e,
    convert_one x = Raise e ->
    exhaust (convert_to_array (x :: rest)) = mk_run [] [] (Some e).
Proof.
  intros x rest e H. unfold exhaust, convert_to_array.
  cbn [remaining List.length]. cbn [iterate next]. rewrite H. reflexivity.
Qed.

(** The fuel of [exhaust] is enough: more calls of [next] find the
    generator finished. *)
Lemma iterate_fuel :
  forall args k,
    iterate (S (List.length args) + k) (Suspended args) =
    exhaust (convert_to_array args).
Proof.
  induction args as [|x rest IH]; intros k.
  - reflexivity.
  - unfold exhaust, convert_to_array. cbn [remaining List.length].
    change (S (S (List.length rest)) + k)%nat
      with (S (S (List.length rest) + k)).
    cbn [iterate next].
    destruct (convert_one x) as [a ws|e]; [|reflexivity].
    rewrite IH. reflexivity.
Qed.

(** A finished generator stays finished: it cannot be restarted. *)
Lemma finished_stays : next Finished = (StopIteration, Finished).
Proof. reflexivity. Qed.

(** ** Claims *)




(** C6, as stated, fails twice: the Python int 2**64 is a scalar of a
    recognized kind, and no array is yielded for it; and the 8-bit
    unsigned integer [np.uint8(5)], a fixed-width numeric variant, passes
    none of the tests and comes out as an object array, with the
    warning. *)
Lemma C6_big_int_and_unsigned :
  scalar (PInt (2 ^ 64)) = true /\
  convert_one (PInt (2 ^ 64)) = Raise OverflowError /\
  convert_one (NpUInt W8 5) =
    Yield (NdArray dt_object [NpUInt W8 5])
          ["Data type <class 'numpy.uint8'> is not configured in function."].
Proof. repeat split. Qed.

(** C6, amended: for every scalar of a kind that lines 83-93 test for
    (bool, int, float, str, [np.bool_], the signed [np.int8] to
    [np.int64], [np.float16] to [np.float64]), a Python int being within
    the signed 64-bit range, [convert_to_array] yields one array of length
    1 whose element type is that of the scalar's own class; widths are
    preserved, so an [np.int8] gives an 8-bit integer array. *)
Theorem C6_scalar_keeps_its_type :
  forall x,
    scalar x = true -> convertible x ->
    convert_one x = Yield (NdArray (np_dtype (type_of x)) [x]) [] /\
    (forall w z, np_dtype (type_of (NpInt w z)) = dt_int w) /\
    (forall w b, np_dtype (type_of (NpFloat w b)) = dt_float w).
Proof.
  intros x Hs Hc. split; [now apply convert_scalar|].
  split; reflexivity.
Qed.

Lemma C6_scalar_keeps_its_type_witness :
  convert_one (NpInt W8 5) =
    Yield (NdArray (np_dtype (type_of (NpInt W8 5))) [NpInt W8 5]) [] /\
  (forall w z, np_dtype (type_of (NpInt w z)) = dt_int w) /\
  (forall w b, np_dtype (type_of (NpFloat w b)) = dt_float w).
Proof.
  apply (C6_scalar_keeps_its_type (NpInt W8 5)).
  - reflexivity.
  - exact I.
Defined.



(** A list of mixed kinds is not kept as it is: numpy converts it. *)
Lemma mixed_list_is_converted :
  convert_one (PList [PInt 1; PStr "a"]) =
  Yield (ArrayOf dt_default [PInt 1; PStr "a"]) [].
Proof. reflexivity. Qed.



(** C8: for every calendar date [convert_to_array] yields one array of
    element type [datetime64[D]] whose single element is the day of that
    date, counted in whole days since 1970-01-01; the test for dates is the
    first of the chain, so whatever passes it is handled as a date. *)
Theorem C8_date_becomes_day_array :
  forall d,
    valid_date d ->
    convert_one (PDate d) =
      Yield (NdArray dt_datetime64_D
               [NpDatetime64 unit_D
                  (Some (days_since_epoch (year d) (month d) (day d)))]) [] /\
    (forall x,
       isinstance x [cls_date] = true ->
       convert_one x =
       yield (s <- strftime x ;; np_array [PStr s] (Some dt_datetime64_D))).
Proof.
  intros d Hd. split.
  - exact (convert_date d Hd).
  - intros x Hx. unfold convert_one. rewrite Hx. reflexivity.
Qed.

Lemma C8_date_becomes_day_array_witness :
  convert_one (PDate (mk_date 2019 1 1)) =
    Yield (NdArray dt_datetime64_D [NpDatetime64 unit_D (Some 17897)]) [] /\
  (forall x,
     isinstance x [cls_date] = true ->
     convert_one x =
     yield (s <- strftime x ;; np_array [PStr s] (Some dt_datetime64_D))).
Proof.
  apply (C8_date_becomes_day_array (mk_date 2019 1 1)).
  repeat split; vm_compute; discriminate.
Defined.




(** C10: a [datetime] passes the test for [date], its class deriving from
    [date]; it is printed as year, month and day only, so the array yielded
    is the one of its calendar date, of element type [datetime64[D]] and
    length 1, the time of day being dropped without warning. *)
Theorem C10_datetime_takes_date_branch :
  forall d t,
    valid_date d ->
    isinstance (PDatetime d t) [cls_date] = true /\
    convert_one (PDatetime d t) =
      Yield (NdArray dt_datetime64_D
               [NpDatetime64 unit_D
                  (Some (days_since_epoch (year d) (month d) (day d)))]) [] /\
    convert_one (PDatetime d t) = convert_one (PDate d).
Proof.
  intros d t Hd. split; [reflexivity|]. split.
  - exact (convert_datetime d t Hd).
  - rewrite (convert_datetime d t Hd), (convert_date d Hd). reflexivity.
Qed.

Lemma C10_datetime_takes_date_branch_witness :
  let d := mk_date 2019 1 1 in
  let t := mk_time 23 59 58 999999 in
  isinstance (PDatetime d t) [cls_date] = true /\
  convert_one (PDatetime d t) =
    Yield (NdArray dt_datetime64_D [NpDatetime64 unit_D (Some 17897)]) [] /\
  convert_one (PDatetime d t) = convert_one (PDate d).
Proof.
  apply (C10_datetime_takes_date_branch (mk_date 2019 1 1) (mk_time 23 59 58 999999)).
  repeat split; vm_compute; discriminate.
Defined.

End UtilsSpec.

(* ================================================================== *)
(** * Further properties of [src/files.py] *)
(* ================================================================== *)

Module FilesExtra.

Import Files.
Import FilesSpec.

(** ** The guard of lines 36-40 *)

(** X1: when the folder already has an entry named [misc_folder_name],
    file or directory, [arrange_files] raises [FileExistsError] with the
    message of line 39 and leaves the folder as it found it: nothing is
    listed, created or moved. *)
Theorem X1_existing_catch_all_is_refused :
  forall ls misc_folder_name d v,
    lookup misc_folder_name d = Some v ->
    arrange_files ls misc_folder_name d =
    Raised (FileExistsError
              ("Folder " ++ misc_folder_name ++
               " already exists, please specify different folder name for misc files."))
           d.
Proof.
  intros ls misc d v H. unfold arrange_files, makedirs. rewrite H. reflexivity.
Qed.

Lemma X1_existing_catch_all_is_refused_witness :
  arrange_files stored_order "others"
    [("others", File "not a folder"); ("a.txt", File "A")] =
  Raised (FileExistsError
            "Folder others already exists, please specify different folder name for misc files.")
         [("others", File "not a folder"); ("a.txt", File "A")].
Proof.
  apply (X1_existing_catch_all_is_refused stored_order "others"
           [("others", File "not a folder"); ("a.txt", File "A")]
           (File "not a folder")).
  reflexivity.
Defined.

(** X2: with the default name, whatever the folder and the listing order,
    and whether the first run returned or raised, a second run raises
    [FileExistsError] and leaves the folder as the first run left it. *)
Theorem X2_default_name_runs_once :
  forall ls d,
    arrange_files ls "others" (final (arrange_files ls "others" d)) =
    Raised (FileExistsError
              "Folder others already exists, please specify different folder name for misc files.")
           (final (arrange_files ls "others" d)).
Proof.
  intros ls d. destruct (others_persists ls d) as (v & Hv).
  unfold arrange_files at 1. unfold makedirs. rewrite Hv. reflexivity.
Qed.

(** ** The loop of lines 46-51 *)

Lemma check_loop_past_end :
  forall fuel i l, List.length l <= i -> check_loop fuel i l = l.
Proof.
  intros fuel i l H. destruct fuel as [|fuel]; simpl; [reflexivity|].
  assert (nth_error l i = None) as -> by (now apply nth_error_None).
  reflexivity.
Qed.

Lemma list_remove_first_rejected :
  forall ext pre rest,
    accepted ext = false ->
    Forall (fun e => accepted e = true) pre ->
    list_remove ext (pre ++ ext :: rest) = pre ++ rest.
Proof.
  intros ext pre rest Hr Hpre. induction Hpre as [|p pre Hp Hpre IH]; simpl.
  - now rewrite String.eqb_refl.
  - assert (String.eqb ext p = false) as ->.
    { apply String.eqb_neq. intros ->. congruence. }
    now rewrite IH.
Qed.

Lemma nth_error_middle :
  forall (pre : list string) x rest,
    nth_error (pre ++ x :: rest) (List.length pre) = Some x.
Proof.
  intros pre x rest. rewrite nth_error_app2 by lia.
  now rewrite Nat.sub_diag.
Qed.

Lemma rejected_apart_tail :
  forall x l, rejected_apart (x :: l) -> rejected_apart l.
Proof. intros x [|y l]; simpl; tauto. Qed.

(** With the iterator at the end of an accepted prefix, the loop filters
    what is left, provided no two rejected tokens are neighbours. *)
Lemma check_loop_filters :
  forall fuel suf pre,
    List.length suf <= fuel ->
    Forall (fun e => accepted e = true) pre ->
    rejected_apart suf ->
    check_loop fuel (List.length pre) (pre ++ suf) =
    pre ++ filter accepted suf.
Proof.
  induction fuel as [|fuel IH]; intros suf pre Hlen Hpre Hsuf.
  - destruct suf; simpl in *; [reflexivity|lia].
  - destruct suf as [|x rest].
    + simpl (filter _ _). apply check_loop_past_end. rewrite length_app. simpl. lia.
    + cbn [check_loop]. rewrite nth_error_middle. fold (accepted x).
      destruct (accepted x) eqn:Ex.
      * cbn [filter]. rewrite Ex.
        replace (pre ++ x :: rest) with ((pre ++ [x]) ++ rest)
          by (now rewrite <- app_assoc).
        replace (S (List.length pre)) with (List.length (pre ++ [x]))
          by (rewrite length_app; simpl; lia).
        rewrite IH.
        -- now rewrite <- app_assoc.
        -- simpl in Hlen. lia.
        -- apply Forall_app. split; [assumption|]. now constructor.
        -- now apply rejected_apart_tail in Hsuf.
      * cbn [filter]. rewrite Ex.
        rewrite list_remove_first_rejected by assumption.
        destruct rest as [|y rest'].
        -- simpl. rewrite app_nil_r. apply check_loop_past_end. lia.
        -- assert (accepted y = true) as Ey.
           { simpl in Hsuf. destruct Hsuf as [[H|H] _]; congruence. }
           cbn [filter]. rewrite Ey.
           replace (pre ++ y :: rest') with ((pre ++ [y]) ++ rest')
             by (now rewrite <- app_assoc).
           replace (S (List.length pre)) with (List.length (pre ++ [y]))
             by (rewrite length_app; simpl; lia).
           rewrite IH.
           ++ now rewrite <- !app_assoc.
           ++ simpl in Hlen. lia.
           ++ apply Forall_app. split; [assumption|]. now constructor.
           ++ apply rejected_apart_tail in Hsuf.
              now apply rejected_apart_tail in Hsuf.
Qed.

(** X3: when no two tokens that fail the test of line 47 stand next to
    each other in [lst_file_ext], the loop of lines 46-51 does what it is
    meant to do: it leaves exactly the tokens that pass the test, in their
    order. *)
Theorem X3_loop_filters_when_rejected_apart :
  forall l,
    rejected_apart l ->
    check_exts l = filter accepted l.
Proof.
  intros l Hl. unfold check_exts.
  apply (check_loop_filters (List.length l) l []); auto.
Qed.

Lemma X3_loop_filters_when_rejected_apart_witness :
  check_exts [".txt"; ".mp3"; ".csv"; ".mp3"; ".txt"] =
  filter accepted [".txt"; ".mp3"; ".csv"; ".mp3"; ".txt"].
Proof.
  apply (X3_loop_filters_when_rejected_apart
           [".txt"; ".mp3"; ".csv"; ".mp3"; ".txt"]).
  simpl. repeat split; (left; reflexivity) || (right; reflexivity) || exact I.
Defined.

(** ** Which names get a bucket (lines 42-54) *)

(** X4: a bucket is only ever asked for a token of at most four
    characters that starts with a dot and ends a listed name; an extension
    of four letters or more (.json, .html) never gets one. *)
Theorem X4_token_is_dot_and_three :
  forall l t,
    In t (file_exts l) ->
    starts_with_dot t = true /\ String.length t <= 4 /\
    exists x, In x l /\ last4 x = t.
Proof.
  intros l t H. destruct (file_exts_inv l t H) as (Hdot & x & Hx & ->).
  split; [assumption|]. split; [apply last4_length|]. eauto.
Qed.

Lemma X4_token_is_dot_and_three_witness :
  starts_with_dot ".csv" = true /\ String.length ".csv" <= 4 /\
  exists x, In x ["data.json"; "prices.csv"; "others"] /\ last4 x = ".csv".
Proof.
  apply (X4_token_is_dot_and_three ["data.json"; "prices.csv"; "others"] ".csv").
  simpl. left. reflexivity.
Defined.

(** X5: a listed name that ends in a dot followed by one to three letters
    always has its token among those buckets are made for, whatever else
    the listing holds: the loop of lines 46-51 drops no token that passes
    its test, and [file_exts] holds each token once. *)
Theorem X5_valid_token_survives :
  forall l x,
    In x l ->
    valid_token (last4 x) = true ->
    In (last4 x) (file_exts l) /\ NoDup (file_exts l).
Proof.
  intros l x Hx Hv. apply andb_true_iff in Hv. destruct Hv as [Hdot Halpha].
  split; [now apply file_exts_alpha|]. unfold file_exts. apply NoDup_nodup.
Qed.

Lemma X5_valid_token_survives_witness :
  In (last4 "b.txt") (file_exts ["a.mp3"; "b.txt"; "c.mp3"; "d.mp3"]) /\
  NoDup (file_exts ["a.mp3"; "b.txt"; "c.mp3"; "d.mp3"]).
Proof.
  apply (X5_valid_token_survives ["a.mp3"; "b.txt"; "c.mp3"; "d.mp3"] "b.txt").
  - simpl. right. left. reflexivity.
  - reflexivity.
Defined.

(** ** What is left on top after a run *)

Lemma names_set_entry : forall k v d, names (set_entry k v d) = names d.
Proof.
  intros k v d. unfold names, set_entry. rewrite map_map.
  apply map_ext. intros [n w]. simpl. destruct (String.eqb k n); reflexivity.
Qed.

Lemma names_remove_entry :
  forall x n d, In n (names (remove_entry x d)) <-> In n (names d) /\ n <> x.
Proof.
  intros x n d. unfold names, remove_entry. rewrite !in_map_iff. split.
  - intros ([m w] & <- & H). apply filter_In in H. destruct H as [H E].
    simpl in *. apply negb_true_iff, String.eqb_neq in E. split.
    + exists (m, w). auto.
    + congruence.
  - intros (([m w] & <- & H) & Hne). exists (m, w). split; [reflexivity|].
    apply filter_In. split; [assumption|]. simpl in *.
    apply negb_true_iff, String.eqb_neq. congruence.
Qed.

(** The last round with a directory ["others"]: what it returns has
    ["others"] still a directory, and of the names it went through only
    ["others"] is left. *)
Lemma move_to_others_clears :
  forall xs d d',
    (exists inside, lookup "others" d = Some (Dir inside)) ->
    for_each xs (fun misc_file => shutil_move misc_file "others") d = Returned d' ->
    forall n, In n (names d') -> In n (names d) /\ (In n xs -> n = "others").
Proof.
  induction xs as [|x xs IH]; intros d d' Hoth Hrun n Hn.
  - simpl in Hrun. inversion Hrun. subst d'. split; [assumption|intros []].
  - simpl in Hrun. destruct Hoth as (inside & Hoth).
    unfold shutil_move in Hrun at 1. rewrite Hoth in Hrun.
    destruct (String.eqb x "others") eqn:Ex.
    + apply String.eqb_eq in Ex. subst x. simpl in Hrun.
      destruct (IH d d' (ex_intro _ inside Hoth) Hrun n Hn) as [H1 H2].
      split; [assumption|]. intros [<-|H]; auto.
    + apply String.eqb_neq in Ex.
      destruct (lookup x inside); [discriminate Hrun|].
      destruct (lookup x d) as [v|] eqn:Hx; [|discriminate Hrun].
      simpl in Hrun.
      set (d1 := set_entry "others" (Dir (inside ++ [(x, v)])) (remove_entry x d)) in *.
      assert (exists inside1, lookup "others" d1 = Some (Dir inside1)) as Hoth1.
      { unfold d1. rewrite lookup_set_same, lookup_remove_other by congruence.
        rewrite Hoth. simpl. eauto. }
      destruct (IH d1 d' Hoth1 Hrun n Hn) as [H1 H2].
      unfold d1 in H1. rewrite names_set_entry in H1.
      apply names_remove_entry in H1. destruct H1 as [H1 Hne].
      split; [assumption|]. intros [->|H]; [congruence|auto].
Qed.

Lemma not_in_false : forall l x, not_in l x = false -> In x l.
Proof.
  intros l x H. unfold not_in in H. apply negb_false_iff in H.
  apply existsb_exists in H. destruct H as (y & Hy & E).
  apply String.eqb_eq in E. now subst y.
Qed.

(** X6: when a run with the default name returns, the top of the folder
    holds the catch-all ["others"] and the buckets, and nothing else: every
    other entry was moved into one of them. *)
Theorem X6_only_buckets_and_others_left :
  forall ls d d',
    (forall l y, In y l -> In y (ls l)) ->
    arrange_files ls "others" d = Returned d' ->
    forall n,
      In n (names d') ->
      n = "others" \/
      In n (file_exts (listdir ls (d ++ [("others", Dir [])]))).
Proof.
  intros ls d d' Hls Hrun n Hn. unfold arrange_files, makedirs in Hrun.
  destruct (lookup "others" d) eqn:Hfree; [discriminate Hrun|].
  set (d1 := d ++ [("others", Dir [])]) in *.
  set (exts := file_exts (listdir ls d1)) in *.
  set (d2 := fold_left make_bucket exts d1) in *.
  destruct (move_by_ext (listdir ls d1) exts d2) as [d3|e d3] eqn:Hfirst;
    [|discriminate Hrun].
  simpl in Hrun.
  assert (exists inside, lookup "others" d3 = Some (Dir inside)) as Hoth.
  { assert (lookup "others" d1 = Some (Dir [])) as H1.
    { unfold d1. rewrite lookup_app_one, Hfree. reflexivity. }
    destruct (make_buckets_kept "others" exts d1 _ H1) as (v2 & H2 & E2).
    assert (kept "others" d2 d3) as K.
    { replace d3 with (final (move_by_ext (listdir ls d1) exts d2))
        by (now rewrite Hfirst).
      apply move_by_ext_kept. intros e0 He0 E0.
      apply file_exts_inv in He0. destruct He0 as [Hdot _].
      subst e0. discriminate Hdot. }
    destruct (K v2 H2) as (v3 & H3 & E3).
    destruct v3 as [data|inside]; [|eauto].
    simpl in E3, E2. congruence. }
  unfold move_misc in Hrun.
  destruct (move_to_others_clears _ d3 d' Hoth Hrun n Hn) as [Hin Honly].
  destruct (not_in exts n) eqn:En.
  - left. apply Honly. apply filter_In. split; [|assumption].
    unfold listdir. now apply Hls.
  - right. now apply not_in_false.
Qed.

Lemma X6_only_buckets_and_others_left_witness :
  ".csv" = "others" \/
  In ".csv" (file_exts (listdir stored_order
                          (example_folder ++ [("others", Dir [])]))).
Proof.
  apply (X6_only_buckets_and_others_left stored_order example_folder
           [("others", Dir [("readme", File "R")]);
            (".txt", Dir [("a.txt", File "A"); ("b.txt", File "B")]);
            (".csv", Dir [("c.csv", File "C")])]).
  - exact stored_order_lists_all.
  - reflexivity.
  - simpl. right. right. left. reflexivity.
Defined.

(** ** [list_file_exts] and [check_file_exists] *)

Lemma substring_length_exact :
  forall s n m, n + m <= String.length s -> String.length (substring n m s) = m.
Proof.
  induction s as [|c s IH]; intros n m H.
  - simpl in H. assert (n = 0) by lia. assert (m = 0) by lia. subst. reflexivity.
  - destruct n as [|n].
    + destruct m as [|m]; simpl; [reflexivity|].
      f_equal. apply (IH 0 m). simpl in H. lia.
    + simpl. apply IH. simpl in H. lia.
Qed.

(** X7: for an extension of four characters, the test [x.endswith(ext)]
    of [list_file_exts] and the test [file[-4:] == file_ext] of
    [arrange_files] agree on every name: [list_file_exts] lists, with the
    folder joined in front and in listing order, exactly the entries that
    [arrange_files] sends to the bucket of that extension. *)
Theorem X7_list_file_exts_matches_buckets :
  forall join ls folder_directory d ext,
    String.length ext = 4 ->
    list_file_exts join ls folder_directory d ext =
    map (join folder_directory)
        (filter (fun x => String.eqb (last4 x) ext) (listdir ls d)).
Proof.
  intros join ls dir d ext Hlen. unfold list_file_exts. f_equal.
  apply filter_ext. intros x. unfold endswith, last4. rewrite Hlen.
  destruct (Nat.leb 4 (String.length x)) eqn:E; simpl; [reflexivity|].
  apply Nat.leb_gt in E. symmetry. apply String.eqb_neq. intros H.
  pose proof (substring_length_le x (String.length x - 4) 4) as Hle.
  replace (String.length x - 4) with 0 in H by lia.
  rewrite substring_whole in H by lia. subst ext. lia.
Qed.

Lemma X7_list_file_exts_matches_buckets_witness :
  list_file_exts (fun a b => (a ++ "/" ++ b)%string) stored_order "docs" example_folder ".txt" =
  map (fun b => ("docs" ++ "/" ++ b)%string)
      (filter (fun x => String.eqb (last4 x) ".txt")
              (listdir stored_order example_folder)).
Proof.
  apply (X7_list_file_exts_matches_buckets
           (fun a b => (a ++ "/" ++ b)%string) stored_order "docs" example_folder ".txt").
  reflexivity.
Defined.

Lemma endswith_empty : forall x, endswith x EmptyString = true.
Proof.
  intros x. unfold endswith. simpl.
  assert (forall s n, substring n 0 s = EmptyString) as H.
  { induction s as [|c s IH]; intros [|n]; simpl; auto. }
  now rewrite H.
Qed.

(** X8: with the empty extension [list_file_exts] lists every entry of the
    folder, directories included, each joined to the folder path. *)
Theorem X8_empty_extension_lists_all :
  forall join ls folder_directory d,
    list_file_exts join ls folder_directory d EmptyString =
    map (join folder_directory) (listdir ls d).
Proof.
  intros join ls dir d. unfold list_file_exts. f_equal.
  induction (listdir ls d) as [|x l IH]; simpl; [reflexivity|].
  rewrite endswith_empty. now rewrite IH.
Qed.

(** X9: [check_file_exists] on a list returns normally exactly when every
    path of the list exists; otherwise it stops at the first path that
    does not exist, in list order, and raises [AssertionError] with that
    path in the message, without looking at the paths after it. *)
Theorem X9_check_stops_at_first_missing :
  forall path_exists paths,
    (check_file_exists path_exists (PathList paths) = Passed /\
     forallb path_exists paths = true) \/
    (exists before file after,
       paths = before ++ file :: after /\
       forallb path_exists before = true /\
       path_exists file = false /\
       check_file_exists path_exists (PathList paths) =
       AssertionError (file ++ " not found")).
Proof.
  intros path_exists paths. simpl.
  induction paths as [|p rest IH]; simpl.
  - left. split; reflexivity.
  - unfold assert_exists at 1. destruct (path_exists p) eqn:Ep; simpl.
    + destruct IH as [[H1 H2]|(before & file & after & -> & Hb & Hf & Hc)].
      * left. split; assumption.
      * right. exists (p :: before), file, after.
        split; [reflexivity|]. split; [simpl; now rewrite Ep|].
        split; [assumption|]. simpl. unfold assert_exists at 1.
        rewrite Ep. exact Hc.
    + right. exists [], p, rest.
      split; [reflexivity|]. split; [reflexivity|]. split; [assumption|].
      simpl. unfold assert_exists. now rewrite Ep.
Qed.

(** ** Where an entry with a token ends up *)

Lemma shutil_move_elsewhere :
  forall t src dst d,
    t <> src -> t <> dst ->
    lookup t (final (shutil_move src dst d)) = lookup t d.
Proof.
  intros t src dst d Hs Hd. unfold shutil_move.
  destruct (lookup dst d) as [[data|inside]|].
  - destruct (lookup src d) as [[sdata|sin]|]; simpl; try reflexivity.
    destruct (String.eqb src dst); simpl; [reflexivity|].
    now rewrite lookup_set_other, lookup_remove_other.
  - destruct (String.eqb src dst); simpl; [reflexivity|].
    destruct (lookup src inside); simpl; [reflexivity|].
    destruct (lookup src d); simpl; [|reflexivity].
    now rewrite lookup_set_other, lookup_remove_other.
  - destruct (lookup src d); simpl; [|reflexivity].
    now rewrite lookup_rename_other.
Qed.

Lemma shutil_move_keeps_in_bucket :
  forall t x v src dst d,
    (src = t -> dst = t) ->
    in_bucket t x v d ->
    in_bucket t x v (final (shutil_move src dst d)).
Proof.
  intros t x v src dst d Hsrc (inside & Ht & Hx).
  destruct (string_dec dst t) as [->|Hd].
  - unfold shutil_move. rewrite Ht.
    destruct (String.eqb src t) eqn:E; simpl; [now exists inside|].
    apply String.eqb_neq in E.
    destruct (lookup src inside); simpl; [now exists inside|].
    destruct (lookup src d) as [w|]; simpl; [|now exists inside].
    exists (inside ++ [(src, w)]). split.
    + rewrite lookup_set_same, lookup_remove_other by congruence.
      now rewrite Ht.
    + now rewrite lookup_app_one, Hx.
  - assert (t <> src) by (intros Hts; apply Hd; apply Hsrc; congruence).
    exists inside. split; [|assumption].
    rewrite shutil_move_elsewhere by congruence. exact Ht.
Qed.

Lemma shutil_move_puts_in_bucket :
  forall t x v d d',
    x <> t ->
    awaits t x v d ->
    shutil_move x t d = Returned d' ->
    in_bucket t x v d'.
Proof.
  intros t x v d d' Hne (Hx & inside & Ht) H. unfold shutil_move in H.
  rewrite Ht in H. apply String.eqb_neq in Hne. rewrite Hne in H.
  apply String.eqb_neq in Hne.
  destruct (lookup x inside) eqn:Hin; [discriminate H|].
  rewrite Hx in H. inversion H. subst d'.
  exists (inside ++ [(x, v)]). split.
  - rewrite lookup_set_same, lookup_remove_other by congruence.
    now rewrite Ht.
  - now rewrite lookup_app_one, Hin, String.eqb_refl.
Qed.

Lemma for_each_holds :
  forall (A : Type) (P : folder -> Prop) (xs : list A) body,
    (forall y d, In y xs -> P d -> P (final (body y d))) ->
    forall d, P d -> P (final (for_each xs body d)).
Proof.
  intros A P xs body. induction xs as [|y xs IH]; intros Hbody d Hd; simpl.
  - exact Hd.
  - pose proof (Hbody y d (or_introl eq_refl) Hd) as Hy.
    destruct (body y d) as [d1|e d1]; simpl in *.
    + apply IH; [|exact Hy]. intros z d' Hz. apply Hbody. now right.
    + exact Hy.
Qed.

Section Placing.

Variables (l : list string) (t x : string) (v : node).
Hypothesis Ht : In t (file_exts l).
Hypothesis Hlast : last4 x = t.
Hypothesis Hne : x <> t.

Lemma move_by_ext_try_move :
  forall files exts,
    move_by_ext files exts =
    for_each files (fun file => for_each exts (try_move file)).
Proof. reflexivity. Qed.

Lemma x_is_no_token : ~ In x (file_exts l).
Proof.
  intros H. apply Hne. rewrite <- Hlast. symmetry. exact (token_last4 l x H).
Qed.

(** Whatever is moved by lines 62-65, an entry once in its bucket stays. *)
Lemma try_move_keeps_in_bucket :
  forall file e d,
    In e (file_exts l) ->
    in_bucket t x v d -> in_bucket t x v (final (try_move file e d)).
Proof.
  intros file e d He H. unfold try_move.
  destruct (String.eqb (last4 file) e) eqn:E; [|exact H].
  apply String.eqb_eq in E. apply shutil_move_keeps_in_bucket; [|exact H].
  intros ->. rewrite (token_last4 l t Ht) in E. congruence.
Qed.

(** The move of another entry leaves [x] waiting. *)
Lemma try_move_keeps_awaiting :
  forall file e d,
    file <> x ->
    In e (file_exts l) ->
    awaits t x v d -> awaits t x v (final (try_move file e d)).
Proof.
  intros file e d Hfile He (Hx & Hdir). unfold try_move.
  destruct (String.eqb (last4 file) e) eqn:E; [|split; assumption].
  apply String.eqb_eq in E. split.
  - rewrite shutil_move_elsewhere; [assumption|congruence|].
    intros Hxe. apply x_is_no_token. now rewrite Hxe.
  - destruct Hdir as (inside & Hdir).
    destruct (shutil_move_kept t file e d) with (v := Dir inside)
      as (w & Hw & Ew); [|assumption|].
    + intros ->. rewrite (token_last4 l t Ht) in E. congruence.
    + destruct w as [data|inside']; [discriminate Ew|eauto].
Qed.

(** The inner loop on [x] itself puts it in its bucket. *)
Lemma inner_loop_places :
  forall es d d',
    (forall e, In e es -> In e (file_exts l)) ->
    for_each es (try_move x) d = Returned d' ->
    (in_bucket t x v d -> in_bucket t x v d') /\
    (awaits t x v d ->
     (In t es -> in_bucket t x v d') /\ (~ In t es -> awaits t x v d')).
Proof.
  induction es as [|e es IH]; intros d d' Hes H; simpl in H.
  - inversion H. subst d'. split; [auto|]. intros Hw. split; [intros []|auto].
  - destruct (try_move x e d) as [d1|err d1] eqn:E1; [|discriminate H].
    simpl in H.
    destruct (IH d1 d' (fun e0 He0 => Hes e0 (or_intror He0)) H) as [IHb IHw].
    split.
    + intros Hb. apply IHb.
      replace d1 with (final (try_move x e d)) by (now rewrite E1).
      apply try_move_keeps_in_bucket; [apply Hes; now left|exact Hb].
    + intros Hw. unfold try_move in E1. rewrite Hlast in E1.
      destruct (String.eqb t e) eqn:Ete.
      * apply String.eqb_eq in Ete. subst e.
        assert (in_bucket t x v d') as Hd'.
        { apply IHb. eapply shutil_move_puts_in_bucket; eauto. }
        split; [auto|]. intros Hn. exfalso. apply Hn. now left.
      * apply String.eqb_neq in Ete. inversion E1. subst d1.
        destruct (IHw Hw) as [IH1 IH2]. split.
        -- intros [He|He]; [congruence|auto].
        -- intros Hn. apply IH2. intros He. apply Hn. now right.
Qed.

(** Lines 62-65 as a whole. *)
Lemma outer_loop_places :
  forall files d d',
    move_by_ext files (file_exts l) d = Returned d' ->
    (in_bucket t x v d -> in_bucket t x v d') /\
    (awaits t x v d ->
     (In x files -> in_bucket t x v d') /\ (~ In x files -> awaits t x v d')).
Proof.
  intros files. rewrite move_by_ext_try_move.
  induction files as [|file files IH]; intros d d' H; simpl in H.
  - inversion H. subst d'. split; [auto|]. intros Hw. split; [intros []|auto].
  - destruct (for_each (file_exts l) (try_move file) d) as [d1|err d1] eqn:E1;
      [|discriminate H].
    simpl in H. destruct (IH d1 d' H) as [IHb IHw]. split.
    + intros Hb. apply IHb.
      replace d1 with (final (for_each (file_exts l) (try_move file) d))
        by (now rewrite E1).
      apply for_each_holds; [|exact Hb].
      intros e d0 He Hd0. now apply try_move_keeps_in_bucket.
    + intros Hw. destruct (string_dec file x) as [->|Hfile].
      * destruct (inner_loop_places (file_exts l) d d1 (fun e He => He) E1)
          as [_ Hin].
        destruct (Hin Hw) as [Hplaced _].
        split; [intros _; apply IHb, Hplaced, Ht|].
        intros Hn. exfalso. apply Hn. now left.
      * assert (awaits t x v d1) as Hw1.
        { replace d1 with (final (for_each (file_exts l) (try_move file) d))
            by (now rewrite E1).
          apply for_each_holds; [|exact Hw].
          intros e d0 He Hd0. now apply try_move_keeps_awaiting. }
        destruct (IHw Hw1) as [IH1 IH2]. split.
        -- intros [He|He]; [congruence|auto].
        -- intros Hn. apply IH2. intros He. apply Hn. now right.
Qed.

End Placing.

Lemma make_buckets_same_entry :
  forall x v ns d,
    lookup x d = Some v -> lookup x (fold_left make_bucket ns d) = Some v.
Proof.
  intros x v ns. induction ns as [|n ns IH]; intros d H; simpl; [exact H|].
  apply IH. unfold make_bucket, makedirs.
  destruct (lookup n d); [exact H|]. now rewrite lookup_app_one, H.
Qed.

(** X23: when a run returns, every entry whose last four characters are a
    token of the run, and which is not itself named by that token, lies
    in the bucket of the token with the content it had, provided no
    regular file bore the bucket's name: this is what [arrange_files] is
    for, and it holds for any catch-all name and listing order. *)
Theorem X23_entry_lands_in_its_bucket :
  forall ls misc_folder_name d d' x v,
    (forall l y, In y l -> In y (ls l)) ->
    arrange_files ls misc_folder_name d = Returned d' ->
    lookup x d = Some v ->
    In (last4 x) (file_exts (listdir ls (d ++ [(misc_folder_name, Dir [])]))) ->
    x <> last4 x ->
    bucket_kind (last4 x) d = true ->
    in_bucket (last4 x) x v d'.
Proof.
  intros ls misc d d' x v Hls Hrun Hx Htok Hne Hkind.
  unfold arrange_files, makedirs in Hrun.
  destruct (lookup misc d) eqn:Hfree; [discriminate Hrun|].
  set (d1 := d ++ [(misc, Dir [])]) in *.
  set (lst_files := listdir ls d1) in *.
  set (t := last4 x) in *.
  set (d2 := fold_left make_bucket (file_exts lst_files) d1) in *.
  destruct (move_by_ext lst_files (file_exts lst_files) d2) as [d3|e d3] eqn:E3;
    [|discriminate Hrun].
  simpl in Hrun.
  assert (lookup x d1 = Some v) as Hx1
    by (unfold d1; now rewrite lookup_app_one, Hx).
  assert (awaits t x v d2) as Hw2.
  { split; [now apply make_buckets_same_entry|].
    destruct (make_buckets_made t (file_exts lst_files) d1 Htok) as (w & Hw & Ew).
    assert (bucket_kind t d1 = true) as Hk1.
    { unfold bucket_kind, d1 in *. rewrite lookup_app_one.
      destruct (lookup t d); [exact Hkind|].
      destruct (String.eqb t misc); reflexivity. }
    rewrite Hk1 in Ew. destruct w as [data|inside]; [discriminate Ew|eauto]. }
  assert (In x lst_files) as Hlisted.
  { unfold lst_files, listdir. apply Hls. unfold names, d1. rewrite map_app.
    apply in_or_app. left. apply in_map_iff. exists (x, v). split; [reflexivity|].
    clear - Hx. induction d as [|[n w] d IH]; simpl in *; [discriminate|].
    destruct (String.eqb x n) eqn:E.
    - apply String.eqb_eq in E. subst n. inversion Hx. now left.
    - right. now apply IH. }
  destruct (outer_loop_places lst_files t x v Htok eq_refl Hne lst_files d2 d3 E3)
    as [_ Hplace].
  destruct (Hplace Hw2) as [Hin _]. specialize (Hin Hlisted).
  replace d' with (final (move_misc ls (file_exts lst_files) d3))
    by (now rewrite Hrun).
  unfold move_misc. apply for_each_holds; [|exact Hin].
  intros misc_file d0 Hm Hd0. apply filter_In in Hm. destruct Hm as [_ Hm].
  apply not_in_spec in Hm. apply shutil_move_keeps_in_bucket; [|exact Hd0].
  intros ->. contradiction.
Qed.

Lemma X23_entry_lands_in_its_bucket_witness :
  in_bucket (last4 "b.txt") "b.txt" (File "B")
    [("others", Dir [("readme", File "R")]);
     (".txt", Dir [("a.txt", File "A"); ("b.txt", File "B")]);
     (".csv", Dir [("c.csv", File "C")])].
Proof.
  apply (X23_entry_lands_in_its_bucket stored_order "others" example_folder
           [("others", Dir [("readme", File "R")]);
            (".txt", Dir [("a.txt", File "A"); ("b.txt", File "B")]);
            (".csv", Dir [("c.csv", File "C")])]
           "b.txt" (File "B")).
  - exact stored_order_lists_all.
  - reflexivity.
  - reflexivity.
  - simpl. left. reflexivity.
  - discriminate.
  - reflexivity.
Defined.

(** ** Where the other entries end up, with the default name *)

Lemma last_round_places :
  forall x v ms d d',
    x <> "others" ->
    for_each ms (fun misc_file => shutil_move misc_file "others") d = Returned d' ->
    (in_bucket "others" x v d -> in_bucket "others" x v d') /\
    (awaits "others" x v d ->
     (In x ms -> in_bucket "others" x v d') /\
     (~ In x ms -> awaits "others" x v d')).
Proof.
  intros x v ms d d' Hx. revert d d'.
  induction ms as [|m ms IH]; intros d d' H; simpl in H.
  - inversion H. subst d'. split; [auto|]. intros Hw. split; [intros []|auto].
  - destruct (shutil_move m "others" d) as [d1|err d1] eqn:E1; [|discriminate H].
    simpl in H. destruct (IH d1 d' H) as [IHb IHw]. split.
    + intros Hb. apply IHb.
      replace d1 with (final (shutil_move m "others" d)) by (now rewrite E1).
      apply shutil_move_keeps_in_bucket; auto.
    + intros Hw. destruct (string_dec m x) as [->|Hm].
      * assert (in_bucket "others" x v d1) as Hb1
          by (eapply shutil_move_puts_in_bucket; eauto).
        split; [intros _; now apply IHb|].
        intros Hn. exfalso. apply Hn. now left.
      * assert (awaits "others" x v d1) as Hw1.
        { destruct Hw as (Hxd & inside & Ho).
          replace d1 with (final (shutil_move m "others" d)) by (now rewrite E1).
          split.
          - rewrite shutil_move_elsewhere; [assumption|congruence|assumption].
          - destruct (shutil_move_kept "others" m "others" d) with (v := Dir inside)
              as (w & Hw & Ew); [auto|assumption|].
            destruct w as [data|inside']; [discriminate Ew|eauto]. }
        destruct (IHw Hw1) as [IH1 IH2]. split.
        -- intros [He|He]; [congruence|auto].
        -- intros Hn. apply IH2. intros He. apply Hn. now right.
Qed.

(** X24: when a run with the default name returns, every entry that is
    neither the catch-all nor named by a token, and whose last four
    characters are no token of the run, lies in [others] with the content
    it had: files without a recognized extension and stray directories
    are all gathered there. *)
Theorem X24_rest_lands_in_others :
  forall ls d d' x v,
    (forall l y, In y l -> In y (ls l)) ->
    arrange_files ls "others" d = Returned d' ->
    lookup x d = Some v ->
    ~ In (last4 x) (file_exts (listdir ls (d ++ [("others", Dir [])]))) ->
    ~ In x (file_exts (listdir ls (d ++ [("others", Dir [])]))) ->
    in_bucket "others" x v d'.
Proof.
  intros ls d d' x v Hls Hrun Hx Hlast Hname.
  unfold arrange_files, makedirs in Hrun.
  destruct (lookup "others" d) eqn:Hfree; [discriminate Hrun|].
  assert (x <> "others") as Hxo by (intros ->; congruence).
  set (d1 := d ++ [("others", Dir [])]) in *.
  set (lst_files := listdir ls d1) in *.
  set (exts := file_exts lst_files) in *.
  set (d2 := fold_left make_bucket exts d1) in *.
  destruct (move_by_ext lst_files exts d2) as [d3|e d3] eqn:E3;
    [|discriminate Hrun].
  simpl in Hrun.
  assert (awaits "others" x v d2) as Hw2.
  { split.
    - apply make_buckets_same_entry. unfold d1. now rewrite lookup_app_one, Hx.
    - assert (lookup "others" d1 = Some (Dir [])) as H1
        by (unfold d1; now rewrite lookup_app_one, Hfree).
      destruct (make_buckets_kept "others" exts d1 _ H1) as (w & Hw & Ew).
      destruct w as [data|inside]; [discriminate Ew|eauto]. }
  assert (awaits "others" x v d3) as Hw3.
  { replace d3 with (final (move_by_ext lst_files exts d2)) by (now rewrite E3).
    rewrite move_by_ext_try_move.
    apply for_each_holds; [|exact Hw2]. intros file d4 _ Hd4.
    apply for_each_holds; [|exact Hd4]. intros e d5 He (Hx5 & inside & Ho5).
    unfold try_move. destruct (String.eqb (last4 file) e) eqn:E; [|split; eauto].
    apply String.eqb_eq in E. split.
    - rewrite shutil_move_elsewhere; [assumption| |].
      + intros Hxf. apply Hlast. rewrite Hxf, E. exact He.
      + intros Hxe. apply Hname. now rewrite Hxe.
    - destruct (shutil_move_kept "others" file e d5) with (v := Dir inside)
        as (w & Hw & Ew); [|assumption|].
      + intros ->. subst e. apply file_exts_inv in He.
        destruct He as [Hdot _]. discriminate Hdot.
      + destruct w as [data|inside']; [discriminate Ew|eauto]. }
  unfold move_misc in Hrun.
  destruct (last_round_places x v _ d3 d' Hxo Hrun) as [_ Hplace].
  destruct (Hplace Hw3) as [Hin _]. apply Hin.
  apply filter_In. split.
  - unfold listdir. apply Hls. destruct Hw3 as [Hx3 _].
    apply in_map_iff. exists (x, v). split; [reflexivity|].
    clear - Hx3. induction d3 as [|[n w] d3 IH]; simpl in *; [discriminate|].
    destruct (String.eqb x n) eqn:E.
    + apply String.eqb_eq in E. subst n. inversion Hx3. now left.
    + right. now apply IH.
  - unfold not_in. apply negb_true_iff.
    destruct (existsb (String.eqb x) exts) eqn:E; [|reflexivity].
    apply existsb_exists in E. destruct E as (y & Hy & Exy).
    apply String.eqb_eq in Exy. subst y. contradiction.
Qed.

Lemma X24_rest_lands_in_others_witness :
  in_bucket "others" "readme" (File "R")
    [("others", Dir [("readme", File "R")]);
     (".txt", Dir [("a.txt", File "A"); ("b.txt", File "B")]);
     (".csv", Dir [("c.csv", File "C")])].
Proof.
  apply (X24_rest_lands_in_others stored_order example_folder
           [("others", Dir [("readme", File "R")]);
            (".txt", Dir [("a.txt", File "A"); ("b.txt", File "B")]);
            (".csv", Dir [("c.csv", File "C")])]
           "readme" (File "R")).
  - exact stored_order_lists_all.
  - reflexivity.
  - reflexivity.
  - vm_compute. intuition discriminate.
  - vm_compute. intuition discriminate.
Defined.

End FilesExtra.

(* ================================================================== *)
(** * Further properties of [src/automation/utils.py] *)
(* ================================================================== *)

Module UtilsExtra.

Import Utils.
Import UtilsSpec.

Local Open Scope Z_scope.

(** ** [print_dict_json] *)







Lemma append_assoc :
  forall a b c : string, ((a ++ b) ++ c = a ++ (b ++ c))%string.
Proof.
  induction a as [|x a IH]; intros b c; simpl; [reflexivity|]. now rewrite IH.
Qed.

Lemma append_nil_r : forall a : string, (a ++ EmptyString)%string = a.
Proof. induction a as [|x a IH]; simpl; [reflexivity|]. now rewrite IH. Qed.

Lemma length_append :
  forall a b : string,
    String.length (a ++ b) = (String.length a + String.length b)%nat.
Proof. induction a as [|x a IH]; intros b; simpl; [reflexivity|]. now rewrite IH. Qed.






(** ** [get_latest_modified_file] *)

Lemma max_from_spec :
  forall getctime rest best,
    exists before after,
      best :: rest = before ++ max_from getctime best rest :: after /\
      (forall g, In g before -> getctime g < getctime (max_from getctime best rest)) /\
      (forall g, In g after -> getctime g <= getctime (max_from getctime best rest)) /\
      getctime best <= getctime (max_from getctime best rest).
Proof.
  intros getctime. induction rest as [|x rest IH]; intros best.
  - exists [], []. simpl. repeat split; try lia; intros g [].
  - simpl. destruct (getctime best <? getctime x) eqn:E.
    + apply Z.ltb_lt in E.
      destruct (IH x) as (before & after & Heq & Hb & Ha & Hx).
      exists (best :: before), after. rewrite Heq. split; [reflexivity|].
      split; [|split; [assumption|lia]].
      intros g [<-|Hg]; [lia|auto].
    + apply Z.ltb_ge in E.
      destruct (IH best) as (before & after & Heq & Hb & Ha & Hx).
      destruct before as [|b before].
      * simpl in Heq. injection Heq as H0 H1.
        exists [], (x :: rest). rewrite <- H0.
        split; [reflexivity|]. split; [intros g []|]. split; [|lia].
        intros g [<-|Hg]; [lia|].
        specialize (Ha g). rewrite <- H1 in Ha. specialize (Ha Hg).
        rewrite <- H0 in Ha. exact Ha.
      * simpl in Heq. injection Heq as H0 H1. subst b.
        exists (best :: x :: before), after.
        split; [simpl; now rewrite <- H1|].
        split; [|split; [assumption|assumption]].
        intros g [<-|[<-|Hg]].
        -- apply Hb. now left.
        -- assert (getctime best < getctime (max_from getctime best rest))
             by (apply Hb; now left). lia.
        -- apply Hb. now right.
Qed.

(** X12: on an empty list of files [get_latest_modified_file] raises
    [ValueError]; otherwise it returns a file of the list whose creation
    time no other file exceeds, and among files of that same time the one
    listed first. *)
Theorem X12_latest_is_first_of_greatest :
  forall getctime list_of_files,
    (list_of_files = [] /\
     get_latest_modified_file getctime list_of_files = Fail ValueError) \/
    (exists before latest after,
       list_of_files = before ++ latest :: after /\
       get_latest_modified_file getctime list_of_files = Ok latest /\
       (forall g, In g before -> getctime g < getctime latest) /\
       (forall g, In g after -> getctime g <= getctime latest)).
Proof.
  intros getctime [|x rest]; [left; split; reflexivity|right].
  destruct (max_from_spec getctime rest x) as (before & after & Heq & Hb & Ha & _).
  exists before, (max_from getctime x rest), after. repeat split; assumption.
Qed.

(** ** [csv_to_json] *)

Lemma dict_get_set_same :
  forall key value data, dict_get key (dict_set key value data) = Some value.
Proof.
  intros key value data. induction data as [|[k v] data IH]; simpl.
  - now rewrite String.eqb_refl.
  - destruct (String.eqb key k) eqn:E; simpl; rewrite E; [reflexivity|exact IH].
Qed.

Lemma dict_get_set_other :
  forall key other value data,
    other <> key ->
    dict_get other (dict_set key value data) = dict_get other data.
Proof.
  intros key other value data Hne. induction data as [|[k v] data IH]; simpl.
  - apply String.eqb_neq in Hne. now rewrite Hne.
  - destruct (String.eqb key k) eqn:E; simpl.
    + apply String.eqb_eq in E. subst k.
      apply String.eqb_neq in Hne. now rewrite Hne.
    + destruct (String.eqb other k); [reflexivity|exact IH].
Qed.

Lemma read_rows_get :
  forall rows data0 data date,
    read_rows rows data0 = Data data ->
    dict_get date data =
    match last_row_of date rows with
    | Some r => Some r
    | None => dict_get date data0
    end.
Proof.
  induction rows as [|r rows IH]; intros data0 data date H; simpl in *.
  - inversion H. reflexivity.
  - destruct (field "Date" r) as [d|] eqn:Ed; [|discriminate H].
    rewrite (IH _ _ date H).
    destruct (last_row_of date rows); [reflexivity|].
    destruct (String.eqb date d) eqn:E.
    + apply String.eqb_eq in E. subst d. apply dict_get_set_same.
    + apply String.eqb_neq in E. now apply dict_get_set_other.
Qed.

(** X13: in the dictionary [csv_to_json] writes out, the entry of a date
    is the last of the rows with that date: a later row replaces an
    earlier row of the same date, and a date no row has is no key. *)
Theorem X13_last_row_of_a_date_wins :
  forall rows data date,
    csv_to_json_data rows = Data data ->
    dict_get date data = last_row_of date rows.
Proof.
  intros rows data date H. unfold csv_to_json_data in H.
  rewrite (read_rows_get rows [] data date H).
  destruct (last_row_of date rows); reflexivity.
Qed.

Lemma X13_last_row_of_a_date_wins_witness :
  dict_get "2020-01-02"
    [("2020-01-01", [("Date", "2020-01-01"); ("Close", "7")]);
     ("2020-01-02", [("Date", "2020-01-02"); ("Close", "9")])] =
  last_row_of "2020-01-02"
    [[("Date", "2020-01-01"); ("Close", "7")];
     [("Date", "2020-01-02"); ("Close", "8")];
     [("Date", "2020-01-02"); ("Close", "9")]].
Proof.
  apply (X13_last_row_of_a_date_wins
           [[("Date", "2020-01-01"); ("Close", "7")];
            [("Date", "2020-01-02"); ("Close", "8")];
            [("Date", "2020-01-02"); ("Close", "9")]]).
  reflexivity.
Defined.

Lemma dict_set_keys :
  forall key value data x,
    In x (map fst (dict_set key value data)) <-> x = key \/ In x (map fst data).
Proof.
  intros key value data x. induction data as [|[k v] data IH]; simpl.
  - intuition.
  - destruct (String.eqb key k) eqn:E; simpl.
    + apply String.eqb_eq in E. subst k. intuition.
    + rewrite IH. intuition.
Qed.

Lemma dict_set_nodup :
  forall key value data,
    NoDup (map fst data) -> NoDup (map fst (dict_set key value data)).
Proof.
  intros key value data H. induction data as [|[k v] data IH]; simpl.
  - constructor; [intros []|constructor].
  - inversion H as [|? ? Hk Hrest]; subst.
    destruct (String.eqb key k) eqn:E; simpl.
    + now constructor.
    + constructor; [|now apply IH].
      rewrite dict_set_keys. intros [->|Hin]; [|contradiction].
      rewrite String.eqb_refl in E. discriminate E.
Qed.

Lemma dict_set_length :
  forall key value data,
    (List.length (dict_set key value data) <= S (List.length data))%nat.
Proof.
  intros key value data. induction data as [|[k v] data IH]; simpl; [lia|].
  destruct (String.eqb key k); simpl; lia.
Qed.

Lemma read_rows_outcome :
  forall rows data0,
    NoDup (map fst data0) ->
    (Forall (fun r => field "Date" r <> None) rows /\
     exists data,
       read_rows rows data0 = Data data /\ NoDup (map fst data) /\
       (List.length data <= List.length data0 + List.length rows)%nat) \/
    (Exists (fun r => field "Date" r = None) rows /\
     read_rows rows data0 = KeyError "Date").
Proof.
  induction rows as [|r rows IH]; intros data0 Hnd; simpl.
  - left. split; [constructor|]. exists data0. repeat split; [assumption|lia].
  - destruct (field "Date" r) as [d|] eqn:Ed.
    + destruct (IH (dict_set d r data0) (dict_set_nodup d r data0 Hnd))
        as [(Hall & data & Hrun & Hdata & Hlen)|(Hex & Hrun)].
      * left. split; [constructor; [congruence|assumption]|].
        exists data. repeat split; try assumption.
        pose proof (dict_set_length d r data0). lia.
      * right. split; [now apply Exists_cons_tl|assumption].
    + right. split; [now apply Exists_cons_hd|reflexivity].
Qed.

(** X14: [csv_to_json] builds its dictionary exactly when every row has a
    field [Date]; the keys are then distinct, so there are at most as many
    entries as rows.  A row without [Date] raises [KeyError] before
    anything is written. *)
Theorem X14_csv_needs_a_date_in_every_row :
  forall rows,
    (Forall (fun r => field "Date" r <> None) rows /\
     exists data,
       csv_to_json_data rows = Data data /\ NoDup (map fst data) /\
       (List.length data <= List.length rows)%nat) \/
    (Exists (fun r => field "Date" r = None) rows /\
     csv_to_json_data rows = KeyError "Date").
Proof.
  intros rows. unfold csv_to_json_data.
  destruct (read_rows_outcome rows [] (NoDup_nil _))
    as [(Hall & data & Hrun & Hdata & Hlen)|H]; [left|right; exact H].
  split; [assumption|]. exists data. repeat split; assumption.
Qed.

(** ** [EmailObject] *)

Lemma format_table_never_returns :
  forall shape, exists e, _format_table shape = NotBuilt e.
Proof.
  intros shape. unfold _format_table.
  destruct (nth_error shape 1); simpl; eauto.
Qed.

(** X15: [EmailObject(...)] is built exactly when [email_table] is [None],
    a list or a data frame, [email_image] is [None], a string or a list,
    and there is a text whenever [add_css] is set.  A numpy array as table
    never builds the object: [_format_table] raises on the comparison of
    line 268, or on [shape[1]] for an array of fewer than two
    dimensions. *)
Theorem X15_email_object_is_built_iff :
  forall text table image add_css,
    (exists o, init_email text table image add_css = Built o) <->
    (match table with
     | TableNone | TableList _ | TableFrame _ => True
     | TableArray _ | TableOther _ => False
     end /\
     match image with
     | ImageOther _ => False
     | _ => True
     end /\
     (add_css = true -> text <> None)).
Proof.
  intros text table image add_css. unfold init_email. split.
  - intros [o H]. destruct table as [|tables|shape|f|cls].
    + destruct image, add_css, text; try discriminate H;
        (split; [exact I|split; [exact I|congruence]]).
    + destruct image, add_css, text; try discriminate H;
        (split; [exact I|split; [exact I|congruence]]).
    + destruct (format_table_never_returns shape) as [e He].
      rewrite He in H. discriminate H.
    + destruct image, add_css, text; try discriminate H;
        (split; [exact I|split; [exact I|congruence]]).
    + discriminate H.
  - intros (Ht & Hi & Hc).
    destruct table as [|tables|shape|f|cls]; try contradiction;
      destruct image; try contradiction;
      destruct add_css; try (eexists; reflexivity);
      destruct text; try (eexists; reflexivity);
      exfalso; now apply Hc.
Qed.

(** ** [hyperlink] and [strip_html_tags] *)

Lemma has_char_append :
  forall a s t,
    has_char a (s ++ t) = (has_char a s || has_char a t)%bool.
Proof.
  intros a s t. induction s as [|c s IH]; simpl; [reflexivity|].
  rewrite IH. now rewrite orb_assoc.
Qed.

Lemma has_char_replace :
  forall a s,
    a <> "/"%char -> a <> backslash ->
    has_char a (replace_char "/" backslash s) = has_char a s.
Proof.
  intros a s H1 H2. induction s as [|c s IH]; simpl; [reflexivity|].
  rewrite IH. f_equal.
  destruct (Ascii.eqb c "/") eqn:E.
  - apply Ascii.eqb_eq in E. subst c.
    assert (Ascii.eqb backslash a = false) as ->
      by (apply Ascii.eqb_neq; congruence).
    symmetry. apply Ascii.eqb_neq. congruence.
  - reflexivity.
Qed.

Lemma strip_plain :
  forall t rest,
    has_char "<" t = false ->
    strip 0 (t ++ rest) = (t ++ strip 0 rest)%string.
Proof.
  induction t as [|c t IH]; intros rest H; simpl in *; [reflexivity|].
  apply orb_false_iff in H. destruct H as [Hc Ht].
  rewrite Hc. now rewrite IH.
Qed.

Lemma strip_skip :
  forall a rest, strip (String.length a) (a ++ rest) = strip 0 rest.
Proof.
  induction a as [|c a IH]; intros rest; simpl; [reflexivity|apply IH].
Qed.

Lemma upto_gt_plain :
  forall body rest,
    has_char "<" body = false ->
    has_char ">" body = false ->
    upto_gt (body ++ String ">" rest) = Some (S (String.length body)).
Proof.
  induction body as [|c body IH]; intros rest Hlt Hgt; simpl in *.
  - reflexivity.
  - apply orb_false_iff in Hlt. destruct Hlt as [Hc1 Hlt].
    apply orb_false_iff in Hgt. destruct Hgt as [Hc2 Hgt].
    rewrite Hc1, Hc2. now rewrite IH.
Qed.

(** A tag with a body free of both angle brackets is taken out whole. *)
Lemma strip_tag :
  forall c body rest,
    has_char "<" (String c body) = false ->
    has_char ">" (String c body) = false ->
    strip 0 (String "<" (String c body ++ String ">" rest)) = strip 0 rest.
Proof.
  intros c body rest Hlt Hgt.
  cbn [strip]. cbn [Ascii.eqb Bool.eqb andb].
  change (String c body ++ String ">" rest)%string
    with (String c (body ++ String ">" rest)).
  cbn [tag_length]. simpl in Hlt, Hgt.
  apply orb_false_iff in Hlt. destruct Hlt as [Hc1 Hlt].
  apply orb_false_iff in Hgt. destruct Hgt as [Hc2 Hgt].
  rewrite Hc1. rewrite (upto_gt_plain body rest Hlt Hgt). cbn [option_map].
  cbn [strip].
  replace (body ++ String ">" rest)%string
    with ((body ++ ">") ++ rest)%string
    by (rewrite append_assoc; reflexivity).
  replace (S (String.length body)) with (String.length (body ++ ">"))
    by (rewrite length_append; simpl; lia).
  apply strip_skip.
Qed.

(** X16: taking the tags out of what [hyperlink] makes gives back the
    link, its slashes turned into backslashes, whenever the link has no
    angle bracket of its own. *)
Theorem X16_strip_undoes_hyperlink :
  forall link,
    has_char "<" link = false ->
    has_char ">" link = false ->
    strip_html_tags (hyperlink link) = replace_char "/" backslash link.
Proof.
  intros link Hlt Hgt. unfold strip_html_tags, hyperlink.
  set (L := replace_char "/" backslash link).
  assert (has_char "<" L = false) as HL1.
  { unfold L. rewrite has_char_replace; [assumption| |]; discriminate. }
  assert (has_char ">" L = false) as HL2.
  { unfold L. rewrite has_char_replace; [assumption| |]; discriminate. }
  replace (("<p><a href='" ++ L ++ "'>") ++ L ++ "</a></p>")%string
    with (String "<" ("p" ++ String ">"
            (String "<" (String "a" (" href='" ++ L ++ "'") ++ String ">"
               (L ++ String "<" ("/a" ++ String ">"
                  (String "<" ("/p" ++ String ">" EmptyString))))))))%string.
  2:{ simpl. rewrite !append_assoc. reflexivity. }
  rewrite (strip_tag "p" EmptyString) by reflexivity.
  rewrite (strip_tag "a" (" href='" ++ L ++ "'")%string).
  - rewrite strip_plain by assumption.
    rewrite (strip_tag "/" "a") by reflexivity.
    rewrite (strip_tag "/" "p") by reflexivity.
    simpl. apply append_nil_r.
  - change (String "a" (" href='" ++ L ++ "'"))%string
      with ("a href='" ++ (L ++ "'"))%string.
    rewrite !has_char_append, HL1. reflexivity.
  - change (String "a" (" href='" ++ L ++ "'"))%string
      with ("a href='" ++ (L ++ "'"))%string.
    rewrite !has_char_append, HL2. reflexivity.
Qed.

Lemma X16_strip_undoes_hyperlink_witness :
  strip_html_tags (hyperlink "C:/reports/2020/prices.csv") =
  replace_char "/" backslash "C:/reports/2020/prices.csv".
Proof.
  apply (X16_strip_undoes_hyperlink "C:/reports/2020/prices.csv"); reflexivity.
Defined.

(** X17: a text without ["<"] has nothing that [strip_html_tags] takes for
    a tag and comes back unchanged. *)
Theorem X17_strip_keeps_plain_text :
  forall x, has_char "<" x = false -> strip_html_tags x = x.
Proof.
  intros x H. unfold strip_html_tags.
  rewrite <- (append_nil_r x) at 1. rewrite strip_plain by assumption.
  simpl. apply append_nil_r.
Qed.

Lemma X17_strip_keeps_plain_text_witness :
  strip_html_tags "3 > 2, and a -> b" = "3 > 2, and a -> b".
Proof.
  apply (X17_strip_keeps_plain_text "3 > 2, and a -> b"). reflexivity.
Defined.

Lemma strip_length :
  forall x skip, (String.length (strip skip x) <= String.length x)%nat.
Proof.
  induction x as [|c x IH]; intros skip; simpl; [lia|].
  destruct skip as [|k].
  - destruct (Ascii.eqb c "<").
    + destruct (tag_length x) as [n|].
      * specialize (IH n). lia.
      * simpl. specialize (IH O). lia.
    + simpl. specialize (IH O). lia.
  - specialize (IH k). lia.
Qed.

(** X18: [strip_html_tags] only takes characters away: its result is never
    longer than its argument. *)
Theorem X18_strip_never_grows :
  forall x, (String.length (strip_html_tags x) <= String.length x)%nat.
Proof. intros x. apply strip_length. Qed.

(** ** [convert_to_array], further *)

Lemma convert_warns_only_unrecognized :
  forall x,
    convertible x ->
    exists a,
      convert_one x =
      Yield a (if unrecognized x then [not_configured x] else []).
Proof.
  intros x Hc. destruct x; try (eexists; reflexivity);
    try (destruct w; eexists; reflexivity).
  - rewrite convert_int. simpl in Hc. rewrite Hc. eexists. reflexivity.
  - rewrite (convert_date d Hc). eexists. reflexivity.
  - rewrite (convert_datetime d t Hc). eexists. reflexivity.
Qed.

(** X19: when an argument makes the conversion raise, the arrays of the
    arguments before it have been yielded, one each, the exception ends
    the iteration, and the arguments after it are never looked at:
    whatever they are, the outcome is the same. *)
Theorem X19_error_keeps_arrays_before :
  forall before x after e,
    Forall convertible before ->
    convert_one x = Raise e ->
    let r := exhaust (convert_to_array (before ++ x :: after)) in
    arrays r = arrays (exhaust (convert_to_array before)) /\
    List.length (arrays r) = List.length before /\
    failure r = Some e.
Proof.
  intros before x after e Hb Hx. cbn zeta.
  induction Hb as [|y before Hy Hb IH].
  - simpl app. rewrite (exhaust_raise x after e Hx). repeat split.
  - destruct (convert_yields y Hy) as (a & ws & E).
    change ((y :: before) ++ x :: after) with (y :: (before ++ x :: after)).
    rewrite (exhaust_yield y _ a ws E), (exhaust_yield y _ a ws E).
    cbn zeta. cbn [arrays failure List.length].
    destruct IH as (IH1 & IH2 & IH3). repeat split.
    + now rewrite IH1.
    + now rewrite IH2.
    + exact IH3.
Qed.

Lemma X19_error_keeps_arrays_before_witness :
  let r := exhaust (convert_to_array
                      ([PStr "a"; PNone] ++ PInt (2 ^ 64) :: [PBool true])) in
  arrays r = arrays (exhaust (convert_to_array [PStr "a"; PNone])) /\
  List.length (arrays r) = List.length [PStr "a"; PNone] /\
  failure r = Some OverflowError.
Proof.
  apply (X19_error_keeps_arrays_before
           [PStr "a"; PNone] (PInt (2 ^ 64)) [PBool true] OverflowError).
  - repeat constructor.
  - reflexivity.
Defined.

(** X20: iterating [convert_to_array] over convertible arguments, the
    warning of line 101 is issued once for each argument of an
    unrecognized kind, in argument order and naming its class, and for no
    other argument.  Warnings that numpy itself may issue while the tests
    are evaluated are not its concern. *)
Theorem X20_one_warning_per_unrecognized :
  forall args,
    Forall convertible args ->
    warnings (exhaust (convert_to_array args)) =
    map not_configured (filter unrecognized args).
Proof.
  induction 1 as [|x rest Hx Hrest IH]; [reflexivity|].
  destruct (convert_warns_only_unrecognized x Hx) as (a & E).
  rewrite (exhaust_yield x rest a _ E). cbn zeta. cbn [warnings filter].
  rewrite IH. destruct (unrecognized x); reflexivity.
Qed.

Lemma X20_one_warning_per_unrecognized_witness :
  warnings (exhaust (convert_to_array
                       [PInt 1; PSet [PInt 1]; PNone; PObject "__main__.Job" 7])) =
  map not_configured
      (filter unrecognized
              [PInt 1; PSet [PInt 1]; PNone; PObject "__main__.Job" 7]).
Proof.
  apply (X20_one_warning_per_unrecognized
           [PInt 1; PSet [PInt 1]; PNone; PObject "__main__.Job" 7]).
  repeat constructor.
Defined.

(** ** [count_py_lines] *)

Lemma item_of_dir :
  forall name entries,
    item_line_count name (Files.Dir entries) = dir_line_count entries.
Proof.
  intros name entries. cbn [item_line_count].
  induction entries as [|[n w] entries IH]; [reflexivity|].
  cbn [dir_line_count]. rewrite <- IH. reflexivity.
Qed.

Lemma dir_line_count_app :
  forall a b,
    dir_line_count (a ++ b) = (dir_line_count a + dir_line_count b)%nat.
Proof.
  induction a as [|[n w] a IH]; intros b; simpl app; [reflexivity|].
  cbn [dir_line_count]. rewrite IH. lia.
Qed.

(** X21: [count_py_lines] does not depend on the order in which the
    entries of the folder are listed. *)
Theorem X21_count_ignores_listing_order :
  forall d d',
    Permutation d d' -> count_py_lines d = count_py_lines d'.
Proof.
  intros d d' H. unfold count_py_lines.
  induction H as [|[n w] l l' H IH|[n w] [m v] l|l l' l'' H1 IH1 H2 IH2].
  - reflexivity.
  - cbn [dir_line_count]. now rewrite IH.
  - cbn [dir_line_count]. lia.
  - congruence.
Qed.

Lemma X21_count_ignores_listing_order_witness :
  count_py_lines [("a.py", Files.File "x"); ("pkg", Files.Dir [])] =
  count_py_lines [("pkg", Files.Dir []); ("a.py", Files.File "x")].
Proof.
  apply (X21_count_ignores_listing_order
           [("a.py", Files.File "x"); ("pkg", Files.Dir [])]
           [("pkg", Files.Dir []); ("a.py", Files.File "x")]).
  apply perm_swap.
Defined.

End UtilsExtra.

(* ================================================================== *)
(** * [arrange_files] and [count_py_lines] together *)
(* ================================================================== *)

Module ArrangeCount.

Import Files.
Import FilesSpec.
Import FilesExtra.

Local Abbreviation count := Utils.dir_line_count.
Local Abbreviation item := Utils.item_line_count.
Local Abbreviation dir_at := Utils.dir_at.
Local Abbreviation settled := Utils.settled.

(** ** Names and entries *)

Lemma lookup_in_names :
  forall x d v, lookup x d = Some v -> In x (names d).
Proof.
  intros x d v. induction d as [|[n w] d IH]; simpl; [discriminate|].
  destruct (String.eqb x n) eqn:E.
  - apply String.eqb_eq in E. auto.
  - intros H. right. now apply IH.
Qed.

Lemma lookup_none_not_in :
  forall x d, lookup x d = None -> ~ In x (names d).
Proof.
  intros x d. induction d as [|[n w] d IH]; simpl; [tauto|].
  destruct (String.eqb x n) eqn:E; [discriminate|].
  apply String.eqb_neq in E. intros H [H1|H1]; [congruence|now apply IH].
Qed.

Lemma remove_entry_absent :
  forall x d, ~ In x (names d) -> remove_entry x d = d.
Proof.
  intros x d. induction d as [|[n w] d IH]; simpl; [reflexivity|].
  intros H. assert (String.eqb x n = false) as ->.
  { apply String.eqb_neq. intros ->. apply H. now left. }
  simpl. f_equal. apply IH. tauto.
Qed.

Lemma set_entry_absent :
  forall k v d, ~ In k (names d) -> set_entry k v d = d.
Proof.
  intros k v d. induction d as [|[n w] d IH]; simpl; [reflexivity|].
  intros H. assert (String.eqb k n = false) as ->.
  { apply String.eqb_neq. intros ->. apply H. now left. }
  f_equal. apply IH. tauto.
Qed.

Lemma remove_entry_nodup :
  forall x d, NoDup (names d) -> NoDup (names (remove_entry x d)).
Proof.
  intros x d. induction d as [|[n w] d IH]; simpl; [auto|].
  intros H. inversion H as [|? ? Hn Hd]; subst.
  destruct (String.eqb x n); simpl; [now apply IH|].
  constructor; [|now apply IH].
  intros Hin. apply names_remove_entry in Hin. tauto.
Qed.

(** ** The count when an entry is taken out or replaced *)

Lemma count_remove :
  forall x v d,
    NoDup (names d) ->
    lookup x d = Some v ->
    count d = item x v + count (remove_entry x d).
Proof.
  intros x v d. induction d as [|[n w] d IH]; simpl; [discriminate|].
  intros Hnd H. inversion Hnd as [|? ? Hn Hd]; subst.
  destruct (String.eqb x n) eqn:E; simpl.
  - apply String.eqb_eq in E. subst n. inversion H. subst w.
    now rewrite remove_entry_absent.
  - cbn [Utils.dir_line_count]. rewrite (IH Hd H). lia.
Qed.

Lemma count_set :
  forall k old v d,
    NoDup (names d) ->
    lookup k d = Some old ->
    count (set_entry k v d) + item k old = count d + item k v.
Proof.
  intros k old v d. induction d as [|[n w] d IH]; simpl; [discriminate|].
  intros Hnd H. inversion Hnd as [|? ? Hn Hd]; subst.
  destruct (String.eqb k n) eqn:E; simpl.
  - apply String.eqb_eq in E. subst n. inversion H. subst w.
    rewrite set_entry_absent by assumption.
    cbn [Utils.dir_line_count]. lia.
  - specialize (IH Hd H). cbn [Utils.dir_line_count]. lia.
Qed.

(** ** One move *)

Lemma kept_dir_at :
  forall t d d', kept t d d' -> dir_at t d -> dir_at t d'.
Proof.
  intros t d d' K [inside H]. destruct (K _ H) as (v & Hv & E).
  destruct v as [data|inside']; [discriminate E|]. now exists inside'.
Qed.

(** A move into a directory keeps the names distinct and the count. *)
Lemma shutil_move_conserves :
  forall src dst d,
    NoDup (names d) ->
    dir_at dst d ->
    NoDup (names (final (shutil_move src dst d))) /\
    count (final (shutil_move src dst d)) = count d.
Proof.
  intros src dst d Hnd [inside Hdst]. unfold shutil_move. rewrite Hdst.
  destruct (String.eqb src dst) eqn:E; simpl; [auto|].
  apply String.eqb_neq in E.
  destruct (lookup src inside); simpl; [auto|].
  destruct (lookup src d) as [v|] eqn:Hsrc; simpl; [|auto].
  split.
  - rewrite names_set_entry. now apply remove_entry_nodup.
  - assert (lookup dst (remove_entry src d) = Some (Dir inside)) as H1
      by (rewrite lookup_remove_other; [assumption|congruence]).
    pose proof (count_set dst (Dir inside) (Dir (inside ++ [(src, v)]))
                  (remove_entry src d) (remove_entry_nodup src d Hnd) H1) as Hset.
    pose proof (count_remove src v d Hnd Hsrc) as Hrem.
    rewrite !UtilsExtra.item_of_dir in Hset.
    rewrite UtilsExtra.dir_line_count_app in Hset.
    cbn [Utils.dir_line_count] in Hset. lia.
Qed.

(** ** Loops *)

Lemma move_settled :
  forall l c src dst d,
    (dst = "others" \/ In dst (file_exts l)) ->
    (src = "others" -> dst = "others") ->
    (forall t, In t (file_exts l) -> src = t -> dst = t) ->
    settled (file_exts l) c d ->
    settled (file_exts l) c (final (shutil_move src dst d)).
Proof.
  intros l c src dst d Hdst Hoth Htok (Hnd & Hc & Ho & Ht).
  assert (dir_at dst d) as Hd by (destruct Hdst as [->|H]; auto).
  destruct (shutil_move_conserves src dst d Hnd Hd) as [H1 H2].
  split; [assumption|]. split; [congruence|]. split.
  - eapply kept_dir_at; [|exact Ho]. apply shutil_move_kept. exact Hoth.
  - intros t Hin. eapply kept_dir_at; [|exact (Ht t Hin)].
    apply shutil_move_kept. now apply Htok.
Qed.

Lemma make_bucket_conserves :
  forall n d,
    NoDup (names d) ->
    NoDup (names (make_bucket d n)) /\ count (make_bucket d n) = count d.
Proof.
  intros n d Hnd. unfold make_bucket, makedirs.
  destruct (lookup n d) eqn:E; [auto|]. split.
  - unfold names. rewrite map_app. simpl.
    apply NoDup_app_remove_l with (l := []). simpl.
    apply Permutation_NoDup with (l := n :: map fst d).
    + apply Permutation_cons_append.
    + constructor; [now apply lookup_none_not_in|assumption].
  - rewrite UtilsExtra.dir_line_count_app.
    cbn [Utils.dir_line_count Utils.item_line_count]. lia.
Qed.

Lemma make_buckets_conserve :
  forall ns d,
    NoDup (names d) ->
    NoDup (names (fold_left make_bucket ns d)) /\
    count (fold_left make_bucket ns d) = count d.
Proof.
  induction ns as [|n ns IH]; intros d Hnd; simpl; [auto|].
  destruct (make_bucket_conserves n d Hnd) as [H1 H2].
  destruct (IH _ H1) as [H3 H4]. split; [assumption|congruence].
Qed.

(** X22: arranging a folder with the default catch-all never changes what
    [count_py_lines] counts below it, whether the run returns or raises
    on the way, provided the names of the folder are distinct and no
    regular file of it bears the name of a bucket the run asks for: every
    move puts an entry, under its own name, into a directory. *)
Theorem X22_arrange_keeps_py_line_count :
  forall ls d,
    NoDup (names d) ->
    Utils.no_file_named_by_token
      (file_exts (listdir ls (d ++ [("others", Dir [])]))) d ->
    Utils.count_py_lines (final (arrange_files ls "others" d)) =
    Utils.count_py_lines d.
Proof.
  intros ls d Hnd Hfiles. unfold arrange_files, makedirs.
  destruct (lookup "others" d) eqn:Hfree; [reflexivity|].
  set (d1 := d ++ [("others", Dir [])]) in *.
  set (lst_files := listdir ls d1) in *.
  set (exts := file_exts lst_files) in *.
  assert (NoDup (names d1) /\ count d1 = count d) as [Hnd1 Hc1].
  { pose proof (make_bucket_conserves "others" d Hnd) as H.
    unfold make_bucket, makedirs in H. rewrite Hfree in H. exact H. }
  assert (lookup "others" d1 = Some (Dir [])) as Ho1.
  { unfold d1. rewrite lookup_app_one, Hfree. reflexivity. }
  destruct (make_buckets_conserve exts d1 Hnd1) as [Hnd2 Hc2].
  set (d2 := fold_left make_bucket exts d1) in *.
  assert (settled exts (count d) d2) as Hs2.
  { split; [assumption|]. split; [congruence|]. split.
    - eapply kept_dir_at; [apply make_buckets_kept|]. now exists [].
    - intros t Ht. destruct (make_buckets_made t exts d1 Ht) as (v & Hv & Ev).
      destruct v as [data|inside]; [|now exists inside].
      exfalso. unfold bucket_kind in Ev. unfold d1 in Ev.
      rewrite lookup_app_one in Ev.
      destruct (lookup t d) as [[data'|inside']|] eqn:Et.
      + now apply (Hfiles t data' Ht).
      + discriminate Ev.
      + destruct (String.eqb t "others"); discriminate Ev. }
  unfold Utils.count_py_lines.
  assert (settled exts (count d)
            (final (move_by_ext lst_files exts d2 >>= move_misc ls exts))) as Hend.
  { assert (settled exts (count d) (final (move_by_ext lst_files exts d2))) as H3.
    { unfold move_by_ext. apply for_each_holds; [|exact Hs2].
      intros file d3 _ Hd3. apply for_each_holds; [|exact Hd3].
      intros e d4 He Hd4.
      destruct (String.eqb (last4 file) e) eqn:E; [|exact Hd4].
      apply String.eqb_eq in E. apply move_settled; try assumption.
      - now right.
      - intros ->. subst e. apply file_exts_inv in He.
        destruct He as [Hdot _]. discriminate Hdot.
      - intros t Ht ->. rewrite (token_last4 lst_files t Ht) in E. congruence. }
    destruct (move_by_ext lst_files exts d2) as [d3|e d3]; simpl in *;
      [|exact H3].
    unfold move_misc. apply for_each_holds; [|exact H3].
    intros misc_file d4 Hm Hd4. apply filter_In in Hm.
    destruct Hm as [_ Hm]. apply not_in_spec in Hm.
    apply move_settled; try assumption.
    - now left.
    - reflexivity.
    - intros t Ht ->. contradiction. }
  destruct Hend as (_ & Hc & _). exact Hc.
Qed.

Lemma X22_arrange_keeps_py_line_count_witness :
  Utils.count_py_lines
    (final (arrange_files stored_order "others"
              [("run.py", File "import os"); ("a.txt", File "A");
               ("pkg", Dir [("m.py", File "x")])])) =
  Utils.count_py_lines
    [("run.py", File "import os"); ("a.txt", File "A");
     ("pkg", Dir [("m.py", File "x")])].
Proof.
  apply (X22_arrange_keeps_py_line_count stored_order
           [("run.py", File "import os"); ("a.txt", File "A");
            ("pkg", Dir [("m.py", File "x")])]).
  - repeat constructor; simpl; intuition discriminate.
  - intros t data Ht. vm_compute in Ht.
    destruct Ht as [<-|[]]. discriminate.
Defined.

End ArrangeCount.
